(** * The todo screen of the Expo / Firebase application

    A shallow embedding of [src/app/(tabs)/index.tsx]: the [HomeScreen]
    component, its live Firestore query, and its four user operations
    (create, toggle, delete, logout).

    - JavaScript strings are sequences of UTF-16 code units ([list N]).
    - JavaScript objects and Firestore document data are finite maps from
      field names to values ([gmap jsstring value]).
    - The component's handlers are programs in a small state-and-exception
      monad over a [world]: the [useState] cells, the alerts on screen, the
      listener registry of the Firestore client, the state of the external
      store (abstract: any [Backend]), the device clock, and the log of
      every observable effect in the order it happened.
    - React's life cycle and the user's gestures are the events of a step
      function over the same world. *)

From stdpp Require Import gmap strings list fin_maps sorting.
From Stdlib Require Import ZArith NArith.

Local Open Scope Z_scope.

(** ** JavaScript strings *)

(** A string value is the sequence of its UTF-16 code units. *)
Definition jsstring : Type := list N.

(** The string literal of the source, character by character (the literals
    of this file are ASCII, one code unit per character). *)
Fixpoint lit (s : string) : jsstring :=
  match s with
  | EmptyString => []
  | String a rest => Ascii.N_of_ascii a :: lit rest
  end.

(** ECMAScript's WhiteSpace and LineTerminator code points, the ones
    [String.prototype.trim] strips: TAB, LF, VT, FF, CR, SP, NBSP, U+1680,
    U+2000..U+200A, LS, PS, U+202F, U+205F, U+3000 and the BOM U+FEFF. *)
Definition is_js_whitespace (c : N) : bool :=
  ((9 <=? c) && (c <=? 13) || (c =? 32) || (c =? 160) || (c =? 5760)
   || (8192 <=? c) && (c <=? 8202) || (c =? 8232) || (c =? 8233)
   || (c =? 8239) || (c =? 8287) || (c =? 12288) || (c =? 65279))%N.

Fixpoint trimStart (s : jsstring) : jsstring :=
  match s with
  | [] => []
  | c :: rest => if is_js_whitespace c then trimStart rest else s
  end.

Definition trimEnd (s : jsstring) : jsstring := rev (trimStart (rev s)).

(** [s.trim()] *)
Definition trim (s : jsstring) : jsstring := trimEnd (trimStart s).

(** ** Values and objects *)

(** The values a Firestore field or a property of the screen's objects holds. *)
Inductive value : Type :=
| VNull
| VBool (b : bool)
| VNum (n : Z)
| VStr (s : jsstring)
| VDate (ms : Z).

#[global] Instance value_eq_dec : EqDecision value.
Proof. solve_decision. Defined.

(** A JavaScript object, and the data of a Firestore document: its own
    properties by name. *)
Abbreviation obj := (gmap jsstring value).

Definition k_id : jsstring := lit "id".
Definition k_text : jsstring := lit "text".
Definition k_completed : jsstring := lit "completed".
Definition k_createdAt : jsstring := lit "createdAt".

(** An object literal [{ k1: v1, ..., kn: vn }]: the properties are defined
    from left to right, a later one replacing an earlier one of its name. *)
Definition object_literal (props : list (jsstring * value)) : obj :=
  foldl (fun o kv => <[kv.1 := kv.2]> o) ∅ props.

(** [{ ...target, ...source }]: spreading [source] into an object copies
    every property of [source] over what the object holds already. *)
Definition object_spread (target source : obj) : obj := source ∪ target.

(** [interface Todo { id; text; completed; createdAt }]: after the cast
    [as Todo[]] a todo is whatever object the snapshot produced; its fields
    are read by name. *)
Definition todo_id (t : obj) : option value := t !! k_id.
Definition todo_text (t : obj) : option value := t !! k_text.
Definition todo_completed (t : obj) : option value := t !! k_completed.
Definition todo_createdAt (t : obj) : option value := t !! k_createdAt.

(** JavaScript's truthiness of a property read off an object ([None] is
    [undefined]), as [&&] and [!] test it. *)
Definition truthy (v : option value) : bool :=
  match v with
  | None | Some VNull => false
  | Some (VBool b) => b
  | Some (VNum n) => negb (n =? 0)
  | Some (VStr s) => match s with [] => false | _ => true end
  | Some (VDate _) => true
  end.

(** ** Firestore references, queries and snapshots *)

(** [collection(db, "todos")] *)
Definition todosCollection : jsstring := lit "todos".

(** A document reference: the collection path and the id it was built
    from. *)
Record docref : Type := DocRef { ref_coll : jsstring; ref_id : jsstring }.

#[global] Instance docref_eq_dec : EqDecision docref.
Proof. solve_decision. Defined.

(** The reference [doc(db, collection, id)] returns when it accepts its
    arguments ([checked_doc], below, is the call itself). *)
Definition doc (coll id : jsstring) : docref := DocRef coll id.

Inductive direction : Type := Asc | Desc.

(** [query(collection, orderBy(field, dir), ...)] *)
Record query : Type := Query {
  q_coll : jsstring;
  q_orderBy : list (jsstring * direction)
}.

(** One document of a query snapshot: [doc.id] and [doc.data()]. *)
Record snapshot_doc : Type := SnapshotDoc {
  doc_id : jsstring;
  doc_data : obj
}.

(** The errors the store, the auth provider or a handler raises. *)
Inductive jserror : Type := JSError (message : string).

(** The result of a call to the outside: a promise that resolves or rejects. *)
Inductive result (A : Type) : Type :=
| Resolved (a : A)
| Rejected (e : jserror).
Arguments Resolved {A} a.
Arguments Rejected {A} e.

(** *** The call [doc(db, path, id)]

    The Firestore client builds the path of the reference from its string
    arguments: an argument that holds "//" is refused, each argument is
    split at "/" and the empty pieces are dropped, and the pieces must be
    even in number (collection, document, collection, document, ...). The
    first argument must not be empty, and an argument that is not a string
    has no [indexOf]: the call throws a [TypeError]. *)

Definition slash : N := 47.

(** [s.split("/")] *)
Fixpoint split_slash (s : jsstring) : list jsstring :=
  match s with
  | [] => [[]]
  | c :: rest =>
      if (c =? slash)%N then [] :: split_slash rest
      else
        match split_slash rest with
        | [] => [[c]]
        | piece :: pieces => (c :: piece) :: pieces
        end
  end.

(** [s.split("/").filter(segment => segment.length > 0)] *)
Definition path_segments (s : jsstring) : list jsstring :=
  List.filter (fun piece => negb (length piece =? 0)%nat) (split_slash s).

(** [s.indexOf("//") >= 0] *)
Fixpoint has_double_slash (s : jsstring) : bool :=
  match s with
  | c :: (c' :: _) as rest =>
      ((c =? slash) && (c' =? slash))%N || has_double_slash rest
  | _ => false
  end.

(** Whether [doc(db, path, id)] returns for the strings [path] and [id]. *)
Definition doc_accepts (path id : jsstring) : bool :=
  negb (length path =? 0)%nat
  && negb (has_double_slash path)
  && negb (has_double_slash id)
  && Nat.even (length (path_segments path ++ path_segments id)).

(** [doc(db, path, id)] for whatever value [id] is at run time ([None] is
    [undefined]): the reference, or the error thrown. *)
Definition checked_doc (path : jsstring) (id : option value) : result docref :=
  match id with
  | Some (VStr s) =>
      if doc_accepts path s then Resolved (doc path s)
      else Rejected (JSError "invalid-argument")
  | _ => Rejected (JSError "TypeError")
  end.

(** The ids Firestore gives documents: not empty, no slash. *)
Definition is_document_id (s : jsstring) : bool :=
  negb (length s =? 0)%nat && forallb (fun c => negb (c =? slash)%N) s.

(** The arrow function of the snapshot callback (lines 59-62):
    [(doc) => ({ id: doc.id, ...doc.data() })]. *)
Definition toTodo (d : snapshot_doc) : obj :=
  object_spread (object_literal [(k_id, VStr (doc_id d))]) (doc_data d).

(** ** Observable effects *)

Inductive alert_style : Type := StyleDefault | StyleCancel | StyleDestructive.

(** The [onPress] closures the source hands to [Alert.alert], by what they
    captured: the one of [deleteTodo] (lines 119-127) holds [id], whatever
    value it is at run time, the one of [handleLogout] (lines 139-147)
    holds nothing. *)
Inductive handler : Type :=
| OnConfirmDelete (id : option value)
| OnConfirmLogout.

(** One button of an alert: [{ text, style, onPress }]. *)
Record alert_button : Type := AlertButton {
  btn_text : string;
  btn_style : alert_style;
  btn_onPress : option handler
}.

(** Everything the screen does that the outside can see, and every write
    of a [useState] cell. *)
Inductive event : Type :=
| ConsoleLog (label : string) (logged : list obj)
| ConsoleError (label : string) (error : jserror)
| AlertShown (title message : string) (buttons : list alert_button)
| CallAddDoc (coll : jsstring) (data : obj)
| CallUpdateDoc (ref : docref) (data : obj)
| CallDeleteDoc (ref : docref)
| CallLogout
| CallOnSnapshot (q : query) (h : nat)
| CallUnsubscribe (h : nat)
| SetTodos (l : list obj)
| SetInputText (s : jsstring)
| SetLoading (b : bool).

(** The calls that reach the external store or the auth provider to change
    something there. *)
Definition is_backend_call (e : event) : bool :=
  match e with
  | CallAddDoc _ _ | CallUpdateDoc _ _ | CallDeleteDoc _ | CallLogout => true
  | _ => false
  end.

Definition is_alert (e : event) : bool :=
  match e with AlertShown _ _ _ => true | _ => false end.

Definition is_subscribe (e : event) : bool :=
  match e with CallOnSnapshot _ _ => true | _ => false end.

Definition is_unsubscribe (e : event) : bool :=
  match e with CallUnsubscribe _ => true | _ => false end.

Definition is_state_write (e : event) : bool :=
  match e with SetTodos _ | SetInputText _ | SetLoading _ => true | _ => false end.

Definition backend_calls (l : list event) : list event :=
  List.filter is_backend_call l.

Definition alerts (l : list event) : list event := List.filter is_alert l.

(** The documents an effect log wrote with [addDoc]. *)
Fixpoint written_docs (l : list event) : list (jsstring * obj) :=
  match l with
  | [] => []
  | CallAddDoc c d :: rest => (c, d) :: written_docs rest
  | _ :: rest => written_docs rest
  end.

(** ** The external store and auth provider *)

(** What this code calls and does not implement: a store with some state
    [S] that answers [addDoc], [updateDoc] and [deleteDoc], and the auth
    context's [logout]. Each call resolves or rejects and moves the store
    to a next state; nothing else is assumed of it. *)
Record Backend (S : Type) : Type := {
  be_addDoc : jsstring -> obj -> S -> result docref * S;
  be_updateDoc : docref -> obj -> S -> result unit * S;
  be_deleteDoc : docref -> S -> result unit * S;
  be_logout : S -> result unit * S
}.
Arguments be_addDoc {S} _ _ _ _.
Arguments be_updateDoc {S} _ _ _ _.
Arguments be_deleteDoc {S} _ _ _.
Arguments be_logout {S} _ _.

(** ** The screen *)

(** The three [useState] cells of [HomeScreen] (lines 35-37). *)
Record screen_state : Type := ScreenState {
  todos : list obj;
  inputText : jsstring;
  loading : bool
}.

(** [useState([])], [useState("")], [useState(true)]. *)
Definition initial_state : screen_state := ScreenState [] [] true.

(** What a run ends with: a value, or an exception nothing caught (for an
    [async] function, the rejection of the promise it returned). *)
Inductive outcome (A : Type) : Type :=
| Normal (a : A)
| Thrown (e : jserror).
Arguments Normal {A} a.
Arguments Thrown {A} e.

Section Screen.
Context {S : Type} (B : Backend S).

(** The world a handler runs in. *)
Record world : Type := World {
  ui : screen_state;                    (* the useState cells *)
  mounted : bool;                       (* a HomeScreen instance is on screen *)
  cleanup : option nat;                 (* what the mount effect returned *)
  dialogs : list (list alert_button);   (* the alerts on screen, oldest first *)
  listeners : gmap nat query;           (* the live queries of the Firestore client *)
  next_listener : nat;
  store : S;                            (* the external store and auth provider *)
  clock : Z;                            (* the device clock, in milliseconds *)
  unhandled : list jserror;             (* errors no handler caught *)
  log : list event                      (* the effects so far, oldest first *)
}.

Definition set_ui (f : screen_state -> screen_state) (w : world) : world :=
  World (f (ui w)) (mounted w) (cleanup w) (dialogs w) (listeners w)
        (next_listener w) (store w) (clock w) (unhandled w) (log w).
Definition set_mounted (b : bool) (c : option nat) (w : world) : world :=
  World (ui w) b c (dialogs w) (listeners w)
        (next_listener w) (store w) (clock w) (unhandled w) (log w).
Definition set_dialogs (d : list (list alert_button)) (w : world) : world :=
  World (ui w) (mounted w) (cleanup w) d (listeners w)
        (next_listener w) (store w) (clock w) (unhandled w) (log w).
Definition set_listeners (l : gmap nat query) (n : nat) (w : world) : world :=
  World (ui w) (mounted w) (cleanup w) (dialogs w) l
        n (store w) (clock w) (unhandled w) (log w).
Definition set_store (s : S) (w : world) : world :=
  World (ui w) (mounted w) (cleanup w) (dialogs w) (listeners w)
        (next_listener w) s (clock w) (unhandled w) (log w).
Definition set_clock (t : Z) (w : world) : world :=
  World (ui w) (mounted w) (cleanup w) (dialogs w) (listeners w)
        (next_listener w) (store w) t (unhandled w) (log w).
Definition set_unhandled (u : list jserror) (w : world) : world :=
  World (ui w) (mounted w) (cleanup w) (dialogs w) (listeners w)
        (next_listener w) (store w) (clock w) u (log w).
Definition set_log (l : list event) (w : world) : world :=
  World (ui w) (mounted w) (cleanup w) (dialogs w) (listeners w)
        (next_listener w) (store w) (clock w) (unhandled w) l.

(** *** The monad of handlers: state and exceptions *)

Definition M (A : Type) : Type := world -> outcome A * world.

#[local] Instance M_ret : MRet M := fun A a w => (Normal a, w).
#[local] Instance M_bind : MBind M := fun A B' f m w =>
  match m w with
  | (Normal a, w') => f a w'
  | (Thrown e, w') => (Thrown e, w')
  end.

(** [try { body } catch (error) { handler }] *)
Definition try_catch {A} (body : M A) (handle : jserror -> M A) : M A :=
  fun w =>
    match body w with
    | (Normal a, w') => (Normal a, w')
    | (Thrown e, w') => handle e w'
    end.

Definition modify (f : world -> world) : M unit :=
  fun w => (Normal tt, f w).

Definition emit (e : event) : M unit :=
  modify (fun w => set_log (log w ++ [e]) w).

(** [await call]: the store answers; a rejection is thrown at the [await].
    A handler runs to its end before the next event is handled: events that
    arrive while a promise is pending are not interleaved with it. *)
Definition await {A} (call : S -> result A * S) : M A :=
  fun w =>
    match call (store w) with
    | (Resolved a, s') => (Normal a, set_store s' w)
    | (Rejected e, s') => (Thrown e, set_store s' w)
    end.

(** *** What the screen imports *)

Definition addDoc (coll : jsstring) (data : obj) : M docref :=
  emit (CallAddDoc coll data);; await (be_addDoc B coll data).

Definition updateDoc (ref : docref) (data : obj) : M unit :=
  emit (CallUpdateDoc ref data);; await (be_updateDoc B ref data).

Definition deleteDoc (ref : docref) : M unit :=
  emit (CallDeleteDoc ref);; await (be_deleteDoc B ref).

(** [logout] of [useAuth()]. *)
Definition logout : M unit :=
  emit CallLogout;; await (be_logout B).

(** [doc(db, path, id)]: the reference, or its error thrown. *)
Definition doc_ref (path : jsstring) (id : option value) : M docref :=
  fun w =>
    match checked_doc path id with
    | Resolved r => (Normal r, w)
    | Rejected e => (Thrown e, w)
    end.

(** [new Date()] *)
Definition new_Date : M Z := fun w => (Normal (clock w), w).

Definition console_log (label : string) (l : list obj) : M unit :=
  emit (ConsoleLog label l).

Definition console_error (label : string) (error : jserror) : M unit :=
  emit (ConsoleError label error).

(** React Native shows one button, OK, when [Alert.alert] is given none. *)
Definition default_buttons : list alert_button :=
  [AlertButton "OK" StyleDefault None].

(** [Alert.alert(title, message, buttons)]: the alert goes on screen and
    the call returns; a button's [onPress] runs when the user presses it. *)
Definition Alert_alert (title message : string) (buttons : list alert_button)
  : M unit :=
  emit (AlertShown title message buttons);;
  modify (fun w =>
    set_dialogs
      (dialogs w ++ [match buttons with [] => default_buttons | _ => buttons end])
      w).

Definition setTodos (l : list obj) : M unit :=
  emit (SetTodos l);;
  modify (set_ui (fun u => ScreenState l (inputText u) (loading u))).

Definition setInputText (s : jsstring) : M unit :=
  emit (SetInputText s);;
  modify (set_ui (fun u => ScreenState (todos u) s (loading u))).

Definition setLoading (b : bool) : M unit :=
  emit (SetLoading b);;
  modify (set_ui (fun u => ScreenState (todos u) (inputText u) b)).

(** [onSnapshot(q, next, error)]: the client registers the listener and
    returns the function that removes it (here: its handle). The two
    callbacks are [snapshot_next] and [snapshot_error] below, the only
    ones this screen ever passes. *)
Definition onSnapshot (q : query) : M nat :=
  fun w =>
    let h := next_listener w in
    (Normal h,
     set_log (log w ++ [CallOnSnapshot q h])
       (set_listeners (<[h := q]> (listeners w)) (Datatypes.S h) w)).

(** Calling what [onSnapshot] returned. *)
Definition unsubscribe (h : nat) : M unit :=
  emit (CallUnsubscribe h);;
  modify (fun w => set_listeners (delete h (listeners w)) (next_listener w) w).

(** *** HomeScreen *)

(** Line 54: [query(todosCollection, orderBy("createdAt", "desc"))]. *)
Definition todos_query : query := Query todosCollection [(k_createdAt, Desc)].

(** Lines 58-65, the snapshot callback. *)
Definition snapshot_next (docs : list snapshot_doc) : M unit :=
  let todosData := map toTodo docs in
  setTodos todosData;;
  setLoading false.

(** Lines 66-70, the error callback. *)
Definition snapshot_error (error : jserror) : M unit :=
  console_error "Error fetching todos:" error;;
  Alert_alert "Error" "Failed to load todos" [];;
  setLoading false.

(** Lines 53-75, the body of the effect; its result is the cleanup
    [() => unsubscribe()], kept as the handle it closes over. *)
Definition todos_effect : M nat :=
  let q := todos_query in
  onSnapshot q.

(** Lines 80-97. [inputText] is the value the rendered closure holds. *)
Definition createTodo (inputText : jsstring) : M unit :=
  if decide (trim inputText = [])
  then Alert_alert "Error" "Please enter a todo item" []
  else
    try_catch
      (now ← new_Date;
       addDoc todosCollection
         (object_literal
            [(k_text, VStr (trim inputText));
             (k_completed, VBool false);
             (k_createdAt, VDate now)]);;
       setInputText [])
      (fun error =>
         console_error "Error adding todo:" error;;
         Alert_alert "Error" "Failed to add todo" []).

(** Lines 100-110. The parameters are typed [string] and [boolean]; at run
    time they are what the row read off its todo, and [!completed] negates
    the truthiness of whatever that is. *)
Definition toggleTodo (id completed : option value) : M unit :=
  try_catch
    (todoDoc ← doc_ref todosCollection id;
     updateDoc todoDoc
       (object_literal [(k_completed, VBool (negb (truthy completed)))]))
    (fun error =>
       console_error "Error updating todo:" error;;
       Alert_alert "Error" "Failed to update todo" []).

(** Lines 113-130. *)
Definition deleteTodo (id : option value) : M unit :=
  Alert_alert "Delete Todo" "Are you sure you want to delete this todo?"
    [AlertButton "Cancel" StyleCancel None;
     AlertButton "Delete" StyleDestructive (Some (OnConfirmDelete id))].

(** Lines 133-150. *)
Definition handleLogout : M unit :=
  Alert_alert "Logout" "Are you sure you want to logout?"
    [AlertButton "Cancel" StyleCancel None;
     AlertButton "Logout" StyleDestructive (Some OnConfirmLogout)].

(** The bodies of the two [onPress] closures (lines 119-127, 139-147). *)
Definition run_handler (h : handler) : M unit :=
  match h with
  | OnConfirmDelete id =>
      try_catch
        (todoDoc ← doc_ref todosCollection id;
         deleteDoc todoDoc)
        (fun error =>
           console_error "Error deleting todo:" error;;
           Alert_alert "Error" "Failed to delete todo" [])
  | OnConfirmLogout =>
      try_catch
        logout
        (fun error =>
           console_error "Error logging out:" error;;
           Alert_alert "Error" "Logout failed" [])
  end.

(** *** Rendering and the life cycle *)

Definition get : M world := fun w => (Normal w, w).

(** [useEffect(effect, [])]: React runs the effect after the first render
    of an instance and keeps the cleanup it returns; the dependency list
    is empty, so no later render runs it again. *)
Definition useEffect_once (effect : M nat) : M unit :=
  w ← get;
  if mounted w then mret tt
  else h ← effect; modify (set_mounted true (Some h)).

(** One render of [HomeScreen] (lines 34-151): line 77 logs the todos,
    and the hook of lines 53-75 is registered. *)
Definition HomeScreen : M unit :=
  w ← get;
  console_log "todos" (todos (ui w));;
  useEffect_once todos_effect.

(** Lines 179-224: the rows on screen, in order; none while loading. *)
Definition displayed (u : screen_state) : list obj :=
  if loading u then [] else todos u.

(** What React, the Firestore client, the user and the clock do to the
    screen. [EvPressAdd] is the Add button and the keyboard's submit, which
    share [createTodo] (lines 172, 174); [EvPressTodo] and [EvPressDelete]
    are the two touchables of a row (lines 195, 216). *)
Inductive ui_event : Type :=
| EvMount
| EvRender
| EvUnmount
| EvSnapshot (h : nat) (docs : list snapshot_doc)
| EvSnapshotError (h : nat) (error : jserror)
| EvChangeText (s : jsstring)
| EvPressAdd
| EvPressTodo (i : nat)
| EvPressDelete (i : nat)
| EvPressLogout
| EvPressAlertButton (d n : nat)
| EvClock (t : Z).

(** What a row passes to its handlers: lines 195 and 216 read [todo.id]
    and [todo.completed] off the todo, whatever they hold. *)
Definition row_args (t : obj) : option value * option value :=
  (todo_id t, todo_completed t).

(** The arguments of the [i]-th row on screen, when there is one. *)
Definition pressed_row (u : screen_state) (i : nat)
  : option (option value * option value) :=
  row_args <$> displayed u !! i.

Definition unmount : M unit :=
  w ← get;
  match cleanup w with
  | Some h => unsubscribe h
  | None => mret tt
  end;;
  modify (set_mounted false None).

(** The world with its [d]-th alert dismissed and nothing else changed. *)
Definition dismiss (d : nat) (w : world) : world :=
  set_dialogs (take d (dialogs w) ++ drop (Datatypes.S d) (dialogs w)) w.

(** A press on the [n]-th button of the [d]-th alert: the alert goes away
    and the button's [onPress], if it has one, runs. *)
Definition press_alert_button (d n : nat) : M unit :=
  w ← get;
  match dialogs w !! d with
  | Some buttons =>
      match buttons !! n with
      | Some b =>
          modify (dismiss d);;
          match btn_onPress b with
          | Some h => run_handler h
          | None => mret tt
          end
      | None => mret tt
      end
  | None => mret tt
  end.

(** One event. Gestures reach the screen only while it is mounted; a
    snapshot or an error reaches it only through a listener that is still
    registered, and the client drops a listener after its error. *)
Definition step (ev : ui_event) : M unit :=
  w ← get;
  match ev with
  | EvMount =>
      if mounted w then mret tt
      else modify (set_ui (fun _ => initial_state));; HomeScreen
  | EvRender => if mounted w then HomeScreen else mret tt
  | EvUnmount => if mounted w then unmount else mret tt
  | EvSnapshot h docs =>
      match listeners w !! h with
      | Some _ => snapshot_next docs
      | None => mret tt
      end
  | EvSnapshotError h error =>
      match listeners w !! h with
      | Some _ =>
          modify (fun w =>
            set_listeners (delete h (listeners w)) (next_listener w) w);;
          snapshot_error error
      | None => mret tt
      end
  | EvChangeText s => if mounted w then setInputText s else mret tt
  | EvPressAdd => if mounted w then createTodo (inputText (ui w)) else mret tt
  | EvPressTodo i =>
      if mounted w then
        match pressed_row (ui w) i with
        | Some (id, completed) => toggleTodo id completed
        | None => mret tt
        end
      else mret tt
  | EvPressDelete i =>
      if mounted w then
        match pressed_row (ui w) i with
        | Some (id, _) => deleteTodo id
        | None => mret tt
        end
      else mret tt
  | EvPressLogout => if mounted w then handleLogout else mret tt
  | EvPressAlertButton d n => press_alert_button d n
  | EvClock t => modify (set_clock t)
  end.

(** An event handled to its end; an exception that escapes the handler
    is recorded as unhandled. *)
Definition dispatch (w : world) (ev : ui_event) : world :=
  match step ev w with
  | (Normal _, w') => w'
  | (Thrown e, w') => set_unhandled (unhandled w' ++ [e]) w'
  end.

Definition run_events (evs : list ui_event) (w : world) : world :=
  foldl dispatch w evs.

(** The world before the screen is first shown. *)
Definition initial_world (s : S) (t : Z) : world :=
  World initial_state false None [] ∅ 0%nat s t [] [].

(** The effects a run added to the log. *)
Definition effects_since (w w' : world) : list event :=
  drop (length (log w)) (log w').

(** The world after a handler that set the cells to [u], put the alerts
    [d] on screen, left the store at [s] and logged [evs], and touched
    nothing else. *)
Definition after (w : world) (u : screen_state) (d : list (list alert_button))
    (s : S) (evs : list event) : world :=
  World u (mounted w) (cleanup w) (dialogs w ++ d) (listeners w)
        (next_listener w) s (clock w) (unhandled w) (log w ++ evs).

(** The listeners of a world are those of its screen: none, or the one
    live query of the mounted instance, whose cleanup closes it. *)
Definition one_subscription (w : world) : Prop :=
  listeners w = ∅
  \/ (mounted w = true
      /\ exists h, cleanup w = Some h /\ listeners w = {[h := todos_query]}).

End Screen.

Arguments pressed_row : simpl never.

(** ** A reference store

    The store the screen talks to, as Firestore documents it, small enough
    to run: documents by collection and id, ids handed out by the store,
    [updateDoc] merging the given fields into an existing document and
    rejecting a missing one, [deleteDoc] removing, [logout] signing out.
    With [failing] set every call rejects with that error, as a store that
    is unreachable or denies permission does. The general theorems below
    hold for every [Backend]; this one runs them. *)
Module Firestore.

Record state : Type := State {
  documents : gmap (jsstring * jsstring) obj;
  next_id : nat;
  signed_in : bool;
  failing : option jserror
}.

(** The id the store gives its [n]-th new document. *)
Definition auto_id (n : nat) : jsstring := lit "auto" ++ [N.of_nat n].

Definition key (r : docref) : jsstring * jsstring := (ref_coll r, ref_id r).

Definition addDoc (coll : jsstring) (data : obj) (st : state)
  : result docref * state :=
  match failing st with
  | Some e => (Rejected e, st)
  | None =>
      let r := DocRef coll (auto_id (next_id st)) in
      (Resolved r,
       State (<[key r := data]> (documents st)) (Datatypes.S (next_id st))
             (signed_in st) (failing st))
  end.

Definition updateDoc (r : docref) (fields : obj) (st : state)
  : result unit * state :=
  match failing st with
  | Some e => (Rejected e, st)
  | None =>
      match documents st !! key r with
      | Some old =>
          (Resolved tt,
           State (<[key r := fields ∪ old]> (documents st)) (next_id st)
                 (signed_in st) (failing st))
      | None => (Rejected (JSError "not-found"), st)
      end
  end.

Definition deleteDoc (r : docref) (st : state) : result unit * state :=
  match failing st with
  | Some e => (Rejected e, st)
  | None =>
      (Resolved tt,
       State (delete (key r) (documents st)) (next_id st)
             (signed_in st) (failing st))
  end.

Definition logout (st : state) : result unit * state :=
  match failing st with
  | Some e => (Rejected e, st)
  | None => (Resolved tt, State (documents st) (next_id st) false (failing st))
  end.

Definition backend : Backend state :=
  {| be_addDoc := addDoc;
     be_updateDoc := updateDoc;
     be_deleteDoc := deleteDoc;
     be_logout := logout |}.

(** An empty store with a signed-in user. *)
Definition empty : state := State ∅ 0%nat true None.

(** The same store, rejecting every call. *)
Definition unavailable : state :=
  State ∅ 0%nat true (Some (JSError "unavailable")).

End Firestore.

(** ** Vocabulary of the statements *)

(** The object the create operation writes (lines 87-91). *)
Definition new_todo_data (text : jsstring) (now : Z) : obj :=
  object_literal
    [(k_text, VStr text); (k_completed, VBool false); (k_createdAt, VDate now)].

(** A list of objects ordered on one field: each element stands in [R] to
    every later one. *)
Definition ordered_by (R : option value -> option value -> Prop)
    (field : jsstring) (l : list obj) : Prop :=
  StronglySorted (fun a b => R (a !! field) (b !! field)) l.

(** Descending timestamps: the order of [orderBy("createdAt", "desc")] on
    documents that hold a date. *)
Definition newest_first (a b : option value) : Prop :=
  match a, b with
  | Some (VDate x), Some (VDate y) => y <= x
  | _, _ => False
  end.

(** The buttons of the two confirmation dialogs (lines 115-128, 135-148). *)
Definition delete_buttons (id : option value) : list alert_button :=
  [AlertButton "Cancel" StyleCancel None;
   AlertButton "Delete" StyleDestructive (Some (OnConfirmDelete id))].

Definition logout_buttons : list alert_button :=
  [AlertButton "Cancel" StyleCancel None;
   AlertButton "Logout" StyleDestructive (Some OnConfirmLogout)].

(** The calls that delete a document or end the session. *)
Definition is_delete_or_logout (e : event) : bool :=
  match e with
  | CallDeleteDoc _ | CallLogout => true
  | _ => false
  end.

(** The fields the toggle operation sends (lines 103-105). *)
Definition toggle_fields (completed : bool) : obj :=
  object_literal [(k_completed, VBool (negb completed))].

(** ** Sample worlds *)

Definition sample_time : Z := 1700000000000.

(** The screen before its first display, the store empty and reachable. *)
Definition w_fresh : @world Firestore.state :=
  initial_world Firestore.empty sample_time.

(** The same, the store rejecting every call. *)
Definition w_down : @world Firestore.state :=
  initial_world Firestore.unavailable sample_time.

(** A stored todo, and a store that holds it under the id "a". *)
Definition sample_doc : obj := new_todo_data (lit "milk") 1000.

Definition sample_store : Firestore.state :=
  Firestore.State {[ (todosCollection, lit "a") := sample_doc ]} 1%nat true None.

(** A snapshot of two todos, the newer first. *)
Definition sample_snapshot : list snapshot_doc :=
  [SnapshotDoc (lit "b") (new_todo_data (lit "eggs") 2000);
   SnapshotDoc (lit "a") (new_todo_data (lit "milk") 1000)].

(** The screen on display, waiting for its first snapshot. *)
Definition w_mounted : @world Firestore.state :=
  dispatch Firestore.backend w_fresh EvMount.

(** The screen showing the two todos of the sample snapshot. *)
Definition w_rows : @world Firestore.state :=
  dispatch Firestore.backend w_mounted (EvSnapshot 0 sample_snapshot).

(** ** The rendered body *)

(** One row of the list (lines 192-220): its React key [todo.id], whether
    the completed styles of the checkbox and of the text apply (lines 200,
    208: [todo.completed && ...]), and the text shown, [todo.text]. *)
Record row_view : Type := RowView {
  row_key : option value;
  row_checked : bool;
  row_text : option value
}.

Definition render_row (todo : obj) : row_view :=
  RowView (todo_id todo) (truthy (todo_completed todo)) (todo_text todo).

(** What lines 179-224 put under the input: the spinner, the notice
    "No todos yet. Add one above!", or the rows. *)
Inductive body_view : Type :=
| ViewLoading
| ViewEmpty
| ViewRows (rows : list row_view).

Definition render_body (u : screen_state) : body_view :=
  if loading u then ViewLoading
  else if (length (todos u) =? 0)%nat then ViewEmpty
  else ViewRows (map render_row (todos u)).

(** A string of white space only (the empty string among them). *)
Definition all_whitespace (s : jsstring) : Prop :=
  Forall (fun c => is_js_whitespace c = true) s.

(** The events that deliver the live query's answer: a snapshot or the
    listener's error. *)
Definition is_delivery (ev : ui_event) : bool :=
  match ev with
  | EvSnapshot _ _ | EvSnapshotError _ _ => true
  | _ => false
  end.

(** ** Tactics *)

(** Unfolds the handlers and the monad down to the world they build. *)
Ltac run_monad :=
  unfold createTodo, toggleTodo, deleteTodo, handleLogout, run_handler,
    snapshot_next, snapshot_error, todos_effect, HomeScreen, useEffect_once,
    unmount, press_alert_button,
    try_catch, addDoc, updateDoc, deleteDoc, logout, new_Date,
    console_log, console_error, Alert_alert, setTodos, setInputText,
    setLoading, onSnapshot, unsubscribe, emit, modify, await, get, dismiss,
    doc_ref,
    mbind, M_bind, mret, M_ret;
  simpl.

(** Closes a goal [m w = (Normal tt, after w ...)] once [m w] is evaluated. *)
Ltac same_world :=
  unfold after; simpl; rewrite <- ?app_assoc, ?app_nil_r; reflexivity.

(** Evaluates [step B ev w] in every case of the event and of what the
    world and the store answer. *)
Ltac step_cases ev :=
  unfold step; run_monad; destruct ev; simpl;
  repeat match goal with
  | |- context [if mounted ?w then _ else _] => destruct (mounted w) eqn:?
  | |- context [match listeners ?w !! ?h with _ => _ end] =>
      destruct (listeners w !! h) eqn:?
  | |- context [match cleanup ?w with _ => _ end] => destruct (cleanup w) eqn:?
  | |- context [match dialogs ?w !! ?d with _ => _ end] =>
      destruct (dialogs w !! d) as [?bs|] eqn:?
  | |- context [match ?bs !! ?n with _ => _ end] =>
      destruct (bs !! n) as [[? ? [[?|]|]]|] eqn:?
  | |- context [match pressed_row ?u ?i with _ => _ end] =>
      destruct (pressed_row u i) as [[? ?]|] eqn:?
  | |- context [decide ?P] => destruct (decide P)
  | |- context [checked_doc ?c ?i] => destruct (checked_doc c i) as [?|?] eqn:?
  | |- context [be_addDoc ?B ?c ?d ?s] => destruct (be_addDoc B c d s) as [[?|?] ?]
  | |- context [be_updateDoc ?B ?c ?d ?s] =>
      destruct (be_updateDoc B c d s) as [[[]|?] ?]
  | |- context [be_deleteDoc ?B ?c ?s] => destruct (be_deleteDoc B c s) as [[[]|?] ?]
  | |- context [be_logout ?B ?s] => destruct (be_logout B s) as [[[]|?] ?]
  | |- _ => progress run_monad
  end.

(** Closes [log w' = log w ++ evs] once both sides are evaluated. *)
Ltac log_grows :=
  simpl; rewrite <- ?app_assoc; simpl;
  first [ reflexivity | symmetry; apply app_nil_r ].

(** Evaluates the effects of a run whose log is written out. *)
Ltac effects_now :=
  unfold effects_since, after; simpl;
  rewrite <- ?app_assoc, ?drop_app_length; simpl.

(** * Properties *)

(** ** Strings *)

Lemma trimStart_head (s : jsstring) (c : N) (rest : jsstring) :
  trimStart s = c :: rest -> is_js_whitespace c = false.
Proof.
  induction s as [|a s IH]; simpl; [discriminate|].
  destruct (is_js_whitespace a) eqn:Ha; [exact IH|].
  intros [= -> _]. exact Ha.
Qed.

Lemma trimStart_suffix (s : jsstring) : exists pre, s = pre ++ trimStart s.
Proof.
  induction s as [|a s [pre IH]]; simpl; [by exists []|].
  destruct (is_js_whitespace a); [|by exists []].
  exists (a :: pre). simpl. by rewrite <- IH.
Qed.

Lemma trimStart_fixed (s : jsstring) (c : N) (rest : jsstring) :
  s = c :: rest -> is_js_whitespace c = false -> trimStart s = s.
Proof. intros -> H. simpl. by rewrite H. Qed.

(** The trimmed text starts with no white space. *)
Lemma trim_head (s : jsstring) (c : N) (rest : jsstring) :
  trim s = c :: rest -> is_js_whitespace c = false.
Proof.
  unfold trim, trimEnd. intros H.
  destruct (trimStart_suffix (rev (trimStart s))) as [pre Hpre].
  apply (f_equal (@rev N)) in Hpre. rewrite rev_involutive, rev_app_distr in Hpre.
  rewrite H in Hpre. simpl in Hpre.
  apply (trimStart_head s c (rest ++ rev pre)). exact Hpre.
Qed.

(** The trimmed text ends with no white space. *)
Lemma trim_last (s : jsstring) (c : N) (init : jsstring) :
  trim s = init ++ [c] -> is_js_whitespace c = false.
Proof.
  unfold trim, trimEnd. intros H.
  apply (f_equal (@rev N)) in H. rewrite rev_involutive, rev_app_distr in H.
  simpl in H. exact (trimStart_head _ _ _ H).
Qed.

Lemma trimEnd_fixed (s : jsstring) (c : N) (init : jsstring) :
  s = init ++ [c] -> is_js_whitespace c = false -> trimEnd s = s.
Proof.
  intros -> H. unfold trimEnd. rewrite rev_app_distr. simpl. rewrite H.
  change (rev (c :: rev init)) with (rev ([c] ++ rev init)).
  by rewrite rev_app_distr, rev_involutive.
Qed.

(** Trimming a trimmed text changes nothing. *)
Lemma trim_idempotent (s : jsstring) : trim (trim s) = trim s.
Proof.
  destruct (trim s) as [|c rest] eqn:E; [reflexivity|].
  pose proof (trim_head s c rest E) as Hc.
  unfold trim at 1. rewrite (trimStart_fixed (c :: rest) c rest eq_refl Hc).
  destruct (exists_last (l := c :: rest) ltac:(discriminate)) as (init & z & Hz).
  rewrite Hz in E. pose proof (trim_last s z init E) as Hl.
  rewrite Hz. exact (trimEnd_fixed _ z init eq_refl Hl).
Qed.

(** ** Objects *)

Lemma field_names_distinct :
  k_id <> k_text /\ k_id <> k_completed /\ k_id <> k_createdAt
  /\ k_text <> k_completed /\ k_text <> k_createdAt
  /\ k_completed <> k_createdAt.
Proof. repeat split; discriminate. Qed.

Lemma new_todo_data_lookup (text : jsstring) (now : Z) (k : jsstring) :
  new_todo_data text now !! k =
    if decide (k = k_createdAt) then Some (VDate now)
    else if decide (k = k_completed) then Some (VBool false)
    else if decide (k = k_text) then Some (VStr text)
    else None.
Proof.
  unfold new_todo_data, object_literal. cbn [foldl fst snd].
  repeat case_decide; subst; simplify_map_eq; try reflexivity.
Qed.

Lemma new_todo_data_dom (text : jsstring) (now : Z) :
  dom (new_todo_data text now) = {[k_text; k_completed; k_createdAt]}.
Proof.
  unfold new_todo_data, object_literal. cbn [foldl fst snd].
  rewrite !dom_insert_L, dom_empty_L. set_solver.
Qed.

(** The fields of the object the snapshot callback builds for a document. *)
Lemma toTodo_lookup (d : snapshot_doc) (k : jsstring) :
  toTodo d !! k =
    match doc_data d !! k with
    | Some v => Some v
    | None => if decide (k = k_id) then Some (VStr (doc_id d)) else None
    end.
Proof.
  unfold toTodo, object_spread, object_literal. cbn [foldl fst snd].
  rewrite lookup_union.
  destruct (doc_data d !! k) as [v|] eqn:E.
  - by rewrite union_Some_l.
  - rewrite (left_id_L None _). case_decide; subst; by simplify_map_eq.
Qed.

Lemma toTodo_other_field (d : snapshot_doc) (k : jsstring) :
  k <> k_id -> toTodo d !! k = doc_data d !! k.
Proof.
  intros Hk. rewrite toTodo_lookup. destruct (doc_data d !! k); [reflexivity|].
  by rewrite decide_False.
Qed.

(** ** Document paths *)

Lemma split_slash_plain (s : jsstring) :
  forallb (fun c => negb (c =? slash)%N) s = true -> split_slash s = [s].
Proof.
  induction s as [|c s IH]; simpl; [reflexivity|].
  intros [Hc Hs]%andb_prop. apply negb_true_iff in Hc. rewrite Hc.
  by rewrite (IH Hs).
Qed.

Lemma has_double_slash_plain (s : jsstring) :
  forallb (fun c => negb (c =? slash)%N) s = true -> has_double_slash s = false.
Proof.
  induction s as [|c s IH]; simpl; [reflexivity|].
  intros [Hc Hs]%andb_prop. apply negb_true_iff in Hc.
  destruct s as [|c' s]; [reflexivity|]. rewrite Hc. simpl. by apply IH.
Qed.

(** The client accepts every document id under the collection of the
    todos. *)
Lemma document_id_accepted (s : jsstring) :
  is_document_id s = true -> doc_accepts todosCollection s = true.
Proof.
  unfold is_document_id, doc_accepts.
  intros [Hlen Hplain]%andb_prop.
  rewrite (has_double_slash_plain s Hplain).
  unfold path_segments. rewrite (split_slash_plain s Hplain). simpl.
  by rewrite Hlen.
Qed.

Lemma checked_doc_string (path s : jsstring) :
  doc_accepts path s = true ->
  checked_doc path (Some (VStr s)) = Resolved (doc path s).
Proof. intros Hok. unfold checked_doc. by rewrite Hok. Qed.

Lemma checked_doc_resolved (path : jsstring) (id : option value) (r : docref) :
  checked_doc path id = Resolved r ->
  exists s, id = Some (VStr s) /\ doc_accepts path s = true /\ r = doc path s.
Proof.
  unfold checked_doc. destruct id as [[| | |s|]|]; try discriminate.
  destruct (doc_accepts path s) eqn:Hok; [|discriminate].
  intros [= <-]. by exists s.
Qed.

(** ** Runs of the handlers *)

Section Runs.
Context {S : Type} (B : Backend S).
Implicit Types (w : @world S) (e : jserror) (id input : jsstring).

Lemma effects_since_after w u d s evs :
  effects_since w (after w u d s evs) = evs.
Proof. unfold effects_since, after. simpl. by rewrite drop_app_length. Qed.

Lemma effects_since_app w w' evs :
  log w' = log w ++ evs -> effects_since w w' = evs.
Proof. unfold effects_since. intros ->. by rewrite drop_app_length. Qed.

Lemma snapshot_next_run (docs : list snapshot_doc) w :
  snapshot_next docs w =
    (Normal tt,
     after w (ScreenState (map toTodo docs) (inputText (ui w)) false) []
       (store w) [SetTodos (map toTodo docs); SetLoading false]).
Proof. run_monad. same_world. Qed.

Lemma snapshot_error_run e w :
  snapshot_error e w =
    (Normal tt,
     after w (ScreenState (todos (ui w)) (inputText (ui w)) false)
       [default_buttons] (store w)
       [ConsoleError "Error fetching todos:" e;
        AlertShown "Error" "Failed to load todos" [];
        SetLoading false]).
Proof. run_monad. same_world. Qed.

Lemma createTodo_blank input w :
  trim input = [] ->
  createTodo B input w =
    (Normal tt,
     after w (ui w) [default_buttons] (store w)
       [AlertShown "Error" "Please enter a todo item" []]).
Proof.
  intros Hblank. unfold createTodo. rewrite decide_True by exact Hblank.
  run_monad. same_world.
Qed.

Lemma createTodo_resolved input w (r : docref) (s' : S) :
  trim input <> [] ->
  be_addDoc B todosCollection (new_todo_data (trim input) (clock w)) (store w)
    = (Resolved r, s') ->
  createTodo B input w =
    (Normal tt,
     after w (ScreenState (todos (ui w)) [] (loading (ui w))) [] s'
       [CallAddDoc todosCollection (new_todo_data (trim input) (clock w));
        SetInputText []]).
Proof.
  intros Hne Hcall. unfold createTodo. rewrite decide_False by exact Hne.
  run_monad. fold (new_todo_data (trim input) (clock w)).
  rewrite Hcall. same_world.
Qed.

Lemma createTodo_rejected input w e (s' : S) :
  trim input <> [] ->
  be_addDoc B todosCollection (new_todo_data (trim input) (clock w)) (store w)
    = (Rejected e, s') ->
  createTodo B input w =
    (Normal tt,
     after w (ui w) [default_buttons] s'
       [CallAddDoc todosCollection (new_todo_data (trim input) (clock w));
        ConsoleError "Error adding todo:" e;
        AlertShown "Error" "Failed to add todo" []]).
Proof.
  intros Hne Hcall. unfold createTodo. rewrite decide_False by exact Hne.
  run_monad. fold (new_todo_data (trim input) (clock w)).
  rewrite Hcall. same_world.
Qed.

Lemma toggleTodo_refused (id completed : option value) w e :
  checked_doc todosCollection id = Rejected e ->
  toggleTodo B id completed w =
    (Normal tt,
     after w (ui w) [default_buttons] (store w)
       [ConsoleError "Error updating todo:" e;
        AlertShown "Error" "Failed to update todo" []]).
Proof. intros Hdoc. run_monad. rewrite Hdoc. same_world. Qed.

Lemma toggleTodo_resolved (id completed : option value) w (r : docref) (s' : S) :
  checked_doc todosCollection id = Resolved r ->
  be_updateDoc B r (toggle_fields (truthy completed)) (store w)
    = (Resolved tt, s') ->
  toggleTodo B id completed w =
    (Normal tt,
     after w (ui w) [] s' [CallUpdateDoc r (toggle_fields (truthy completed))]).
Proof.
  intros Hdoc Hcall. run_monad. rewrite Hdoc. simpl.
  fold (toggle_fields (truthy completed)). rewrite Hcall. same_world.
Qed.

Lemma toggleTodo_rejected (id completed : option value) w (r : docref) e (s' : S) :
  checked_doc todosCollection id = Resolved r ->
  be_updateDoc B r (toggle_fields (truthy completed)) (store w)
    = (Rejected e, s') ->
  toggleTodo B id completed w =
    (Normal tt,
     after w (ui w) [default_buttons] s'
       [CallUpdateDoc r (toggle_fields (truthy completed));
        ConsoleError "Error updating todo:" e;
        AlertShown "Error" "Failed to update todo" []]).
Proof.
  intros Hdoc Hcall. run_monad. rewrite Hdoc. simpl.
  fold (toggle_fields (truthy completed)). rewrite Hcall. same_world.
Qed.

(** The two buttons of the delete confirmation (lines 115-128). *)
Lemma deleteTodo_run (id : option value) w :
  deleteTodo id w =
    (Normal tt,
     after w (ui w)
       [[AlertButton "Cancel" StyleCancel None;
         AlertButton "Delete" StyleDestructive (Some (OnConfirmDelete id))]]
       (store w)
       [AlertShown "Delete Todo" "Are you sure you want to delete this todo?"
          [AlertButton "Cancel" StyleCancel None;
           AlertButton "Delete" StyleDestructive (Some (OnConfirmDelete id))]]).
Proof. run_monad. same_world. Qed.

Lemma handleLogout_run w :
  handleLogout w =
    (Normal tt,
     after w (ui w)
       [[AlertButton "Cancel" StyleCancel None;
         AlertButton "Logout" StyleDestructive (Some OnConfirmLogout)]]
       (store w)
       [AlertShown "Logout" "Are you sure you want to logout?"
          [AlertButton "Cancel" StyleCancel None;
           AlertButton "Logout" StyleDestructive (Some OnConfirmLogout)]]).
Proof. run_monad. same_world. Qed.

Lemma confirm_delete_refused (id : option value) w e :
  checked_doc todosCollection id = Rejected e ->
  run_handler B (OnConfirmDelete id) w =
    (Normal tt,
     after w (ui w) [default_buttons] (store w)
       [ConsoleError "Error deleting todo:" e;
        AlertShown "Error" "Failed to delete todo" []]).
Proof. intros Hdoc. run_monad. rewrite Hdoc. same_world. Qed.

Lemma confirm_delete_resolved (id : option value) w (r : docref) (s' : S) :
  checked_doc todosCollection id = Resolved r ->
  be_deleteDoc B r (store w) = (Resolved tt, s') ->
  run_handler B (OnConfirmDelete id) w =
    (Normal tt, after w (ui w) [] s' [CallDeleteDoc r]).
Proof.
  intros Hdoc Hcall. run_monad. rewrite Hdoc. simpl. rewrite Hcall. same_world.
Qed.

Lemma confirm_delete_rejected (id : option value) w (r : docref) e (s' : S) :
  checked_doc todosCollection id = Resolved r ->
  be_deleteDoc B r (store w) = (Rejected e, s') ->
  run_handler B (OnConfirmDelete id) w =
    (Normal tt,
     after w (ui w) [default_buttons] s'
       [CallDeleteDoc r;
        ConsoleError "Error deleting todo:" e;
        AlertShown "Error" "Failed to delete todo" []]).
Proof.
  intros Hdoc Hcall. run_monad. rewrite Hdoc. simpl. rewrite Hcall. same_world.
Qed.

Lemma confirm_logout_resolved w (s' : S) :
  be_logout B (store w) = (Resolved tt, s') ->
  run_handler B OnConfirmLogout w =
    (Normal tt, after w (ui w) [] s' [CallLogout]).
Proof. intros Hcall. run_monad. rewrite Hcall. same_world. Qed.

Lemma confirm_logout_rejected w e (s' : S) :
  be_logout B (store w) = (Rejected e, s') ->
  run_handler B OnConfirmLogout w =
    (Normal tt,
     after w (ui w) [default_buttons] s'
       [CallLogout;
        ConsoleError "Error logging out:" e;
        AlertShown "Error" "Logout failed" []]).
Proof. intros Hcall. run_monad. rewrite Hcall. same_world. Qed.

End Runs.

(** ** Steps *)

Section Steps.
Context {S : Type} (B : Backend S).
Implicit Types (w : @world S) (e : jserror) (ev : ui_event).

(** Every event is handled to its end: no exception leaves [step]. *)
Lemma step_normal ev w :
  exists w' evs,
    step B ev w = (Normal tt, w')
    /\ log w' = log w ++ evs
    /\ unhandled w' = unhandled w.
Proof.
  step_cases ev.
  all: eexists _, _; split; [reflexivity|]; split; [log_grows | reflexivity].
Qed.

Lemma dispatch_step ev w :
  exists evs,
    step B ev w = (Normal tt, dispatch B w ev)
    /\ log (dispatch B w ev) = log w ++ evs
    /\ unhandled (dispatch B w ev) = unhandled w.
Proof.
  destruct (step_normal ev w) as (w' & evs & Hstep & Hlog & Hun).
  exists evs. unfold dispatch. rewrite Hstep. auto.
Qed.

Lemma run_events_cons ev (evs : list ui_event) w :
  run_events B (ev :: evs) w = run_events B evs (dispatch B w ev).
Proof. reflexivity. Qed.

Lemma run_events_snoc ev (evs : list ui_event) w :
  run_events B (evs ++ [ev]) w = dispatch B (run_events B evs w) ev.
Proof. unfold run_events. by rewrite foldl_app. Qed.

(** The first render of an instance: line 77 logs the initial todos and
    the effect opens the live query. *)
Lemma mount_run w :
  mounted w = false ->
  dispatch B w EvMount =
    World initial_state true (Some (next_listener w)) (dialogs w)
      (<[next_listener w := todos_query]> (listeners w))
      (Datatypes.S (next_listener w)) (store w) (clock w) (unhandled w)
      (log w ++ [ConsoleLog "todos" []; CallOnSnapshot todos_query (next_listener w)]).
Proof.
  intros Hm. unfold dispatch, step. run_monad.
  repeat (rewrite Hm; simpl). rewrite <- ?app_assoc. reflexivity.
Qed.

(** A later render: the log line only. *)
Lemma render_run w :
  mounted w = true ->
  dispatch B w EvRender =
    after w (ui w) [] (store w) [ConsoleLog "todos" (todos (ui w))].
Proof.
  intros Hm. unfold dispatch, step. run_monad.
  repeat (rewrite Hm; simpl). same_world.
Qed.

Lemma unmount_run w (h : nat) :
  mounted w = true -> cleanup w = Some h ->
  dispatch B w EvUnmount =
    World (ui w) false None (dialogs w) (delete h (listeners w))
      (next_listener w) (store w) (clock w) (unhandled w)
      (log w ++ [CallUnsubscribe h]).
Proof.
  intros Hm Hc. unfold dispatch, step. run_monad.
  rewrite Hm; simpl. rewrite Hc. reflexivity.
Qed.

Lemma unmount_mounted ev w : ev = EvUnmount -> mounted (dispatch B w ev) = false.
Proof.
  intros ->. unfold dispatch. step_cases EvUnmount; reflexivity || assumption.
Qed.

(** Events other than mounting and unmounting leave the instance and its
    cleanup alone, and neither open nor close a subscription. *)
Lemma step_keeps_instance ev w :
  ev <> EvMount -> ev <> EvUnmount ->
  mounted (dispatch B w ev) = mounted w
  /\ cleanup (dispatch B w ev) = cleanup w
  /\ List.filter is_subscribe (effects_since w (dispatch B w ev)) = []
  /\ List.filter is_unsubscribe (effects_since w (dispatch B w ev)) = [].
Proof.
  intros Hmount Hunmount. unfold dispatch, effects_since.
  step_cases ev; try congruence.
  all: repeat split; try reflexivity; try congruence.
  all: simpl; rewrite <- ?app_assoc, ?drop_app_length, ?drop_all; reflexivity.
Qed.
End Steps.

(** ** The possible runs of each operation *)

Section Cases.
Context {S : Type} (B : Backend S).
Implicit Types (w : @world S) (e : jserror) (id input : jsstring).

Lemma createTodo_cases input w :
  (trim input = []
   /\ createTodo B input w =
        (Normal tt,
         after w (ui w) [default_buttons] (store w)
           [AlertShown "Error" "Please enter a todo item" []]))
  \/ (trim input <> []
      /\ exists r s',
           be_addDoc B todosCollection (new_todo_data (trim input) (clock w))
             (store w) = (Resolved r, s')
           /\ createTodo B input w =
                (Normal tt,
                 after w (ScreenState (todos (ui w)) [] (loading (ui w))) [] s'
                   [CallAddDoc todosCollection
                      (new_todo_data (trim input) (clock w));
                    SetInputText []]))
  \/ (trim input <> []
      /\ exists e s',
           be_addDoc B todosCollection (new_todo_data (trim input) (clock w))
             (store w) = (Rejected e, s')
           /\ createTodo B input w =
                (Normal tt,
                 after w (ui w) [default_buttons] s'
                   [CallAddDoc todosCollection
                      (new_todo_data (trim input) (clock w));
                    ConsoleError "Error adding todo:" e;
                    AlertShown "Error" "Failed to add todo" []])).
Proof.
  destruct (decide (trim input = [])) as [Hblank|Hne].
  - left. split; [exact Hblank|]. by apply createTodo_blank.
  - right.
    destruct (be_addDoc B todosCollection (new_todo_data (trim input) (clock w))
                (store w)) as [[r|e] s'] eqn:Hcall.
    + left. split; [exact Hne|]. exists r, s'. split; [reflexivity|].
      by apply createTodo_resolved with r.
    + right. split; [exact Hne|]. exists e, s'. split; [reflexivity|].
      by apply createTodo_rejected.
Qed.

Lemma toggleTodo_cases (id completed : option value) w :
  (exists e,
     checked_doc todosCollection id = Rejected e
     /\ toggleTodo B id completed w =
          (Normal tt,
           after w (ui w) [default_buttons] (store w)
             [ConsoleError "Error updating todo:" e;
              AlertShown "Error" "Failed to update todo" []]))
  \/ (exists r s',
        checked_doc todosCollection id = Resolved r
        /\ be_updateDoc B r (toggle_fields (truthy completed)) (store w)
             = (Resolved tt, s')
        /\ toggleTodo B id completed w =
             (Normal tt,
              after w (ui w) [] s'
                [CallUpdateDoc r (toggle_fields (truthy completed))]))
  \/ (exists r e s',
        checked_doc todosCollection id = Resolved r
        /\ be_updateDoc B r (toggle_fields (truthy completed)) (store w)
             = (Rejected e, s')
        /\ toggleTodo B id completed w =
             (Normal tt,
              after w (ui w) [default_buttons] s'
                [CallUpdateDoc r (toggle_fields (truthy completed));
                 ConsoleError "Error updating todo:" e;
                 AlertShown "Error" "Failed to update todo" []])).
Proof.
  destruct (checked_doc todosCollection id) as [r|e] eqn:Hdoc.
  - right.
    destruct (be_updateDoc B r (toggle_fields (truthy completed)) (store w))
      as [[[]|e] s'] eqn:Hcall.
    + left. exists r, s'. split; [reflexivity|]. split; [exact Hcall|].
      by apply toggleTodo_resolved.
    + right. exists r, e, s'. split; [reflexivity|]. split; [exact Hcall|].
      by apply toggleTodo_rejected.
  - left. exists e. split; [reflexivity|]. by apply toggleTodo_refused.
Qed.

Lemma confirm_delete_cases (id : option value) w :
  (exists e,
     checked_doc todosCollection id = Rejected e
     /\ run_handler B (OnConfirmDelete id) w =
          (Normal tt,
           after w (ui w) [default_buttons] (store w)
             [ConsoleError "Error deleting todo:" e;
              AlertShown "Error" "Failed to delete todo" []]))
  \/ (exists r s',
        checked_doc todosCollection id = Resolved r
        /\ be_deleteDoc B r (store w) = (Resolved tt, s')
        /\ run_handler B (OnConfirmDelete id) w =
             (Normal tt, after w (ui w) [] s' [CallDeleteDoc r]))
  \/ (exists r e s',
        checked_doc todosCollection id = Resolved r
        /\ be_deleteDoc B r (store w) = (Rejected e, s')
        /\ run_handler B (OnConfirmDelete id) w =
             (Normal tt,
              after w (ui w) [default_buttons] s'
                [CallDeleteDoc r;
                 ConsoleError "Error deleting todo:" e;
                 AlertShown "Error" "Failed to delete todo" []])).
Proof.
  destruct (checked_doc todosCollection id) as [r|e] eqn:Hdoc.
  - right.
    destruct (be_deleteDoc B r (store w)) as [[[]|e] s'] eqn:Hcall.
    + left. exists r, s'. split; [reflexivity|]. split; [exact Hcall|].
      by apply confirm_delete_resolved.
    + right. exists r, e, s'. split; [reflexivity|]. split; [exact Hcall|].
      by apply confirm_delete_rejected.
  - left. exists e. split; [reflexivity|]. by apply confirm_delete_refused.
Qed.

Lemma confirm_logout_cases w :
  (exists s',
     be_logout B (store w) = (Resolved tt, s')
     /\ run_handler B OnConfirmLogout w =
          (Normal tt, after w (ui w) [] s' [CallLogout]))
  \/ (exists e s',
        be_logout B (store w) = (Rejected e, s')
        /\ run_handler B OnConfirmLogout w =
             (Normal tt,
              after w (ui w) [default_buttons] s'
                [CallLogout;
                 ConsoleError "Error logging out:" e;
                 AlertShown "Error" "Logout failed" []])).
Proof.
  destruct (be_logout B (store w)) as [[[]|e] s'] eqn:Hcall.
  - left. exists s'. split; [reflexivity|]. by apply confirm_logout_resolved.
  - right. exists e, s'. split; [reflexivity|]. by apply confirm_logout_rejected.
Qed.

(** Only a snapshot, or the first render of a new instance, writes the
    todos. *)
Lemma step_keeps_todos (ev : ui_event) w :
  (forall h docs, ev <> EvSnapshot h docs) -> ev <> EvMount ->
  todos (ui (dispatch B w ev)) = todos (ui w).
Proof.
  intros Hsnap Hmount. unfold dispatch.
  step_cases ev; try reflexivity; congruence.
Qed.

End Cases.

(** * The properties of the specification *)

(** C1. The claim fails on a document the live query does deliver: the
    document "a" holds [createdAt], so the query on line 54 returns it, and
    it holds a field [id] with the value "b". The spread of line 61 comes
    after [id: doc.id], so the todo is shown under "b", and a press on its
    row updates the document "b" (line 102 takes [todo.id] for the
    document's id). *)
Lemma snapshot_stored_id_shadows_document_id :
  todo_id <$>
    todos (ui (snapshot_next
                 [SnapshotDoc (lit "a")
                    (<[k_id := VStr (lit "b")]> (new_todo_data (lit "milk") 1000))]
                 w_fresh).2)
  = [Some (VStr (lit "b"))]
  /\ todo_createdAt <$>
       todos (ui (snapshot_next
                    [SnapshotDoc (lit "a")
                       (<[k_id := VStr (lit "b")]>
                          (new_todo_data (lit "milk") 1000))]
                    w_fresh).2)
     = [Some (VDate 1000)]
  /\ backend_calls
       (effects_since w_mounted
          (run_events Firestore.backend
             [EvSnapshot 0
                [SnapshotDoc (lit "a")
                   (<[k_id := VStr (lit "b")]>
                      (new_todo_data (lit "milk") 1000))];
              EvPressTodo 0]
             w_mounted))
     = [CallUpdateDoc (doc todosCollection (lit "b")) (toggle_fields false)].
Proof. split; [|split]; vm_compute; reflexivity. Qed.

(** X19. After every snapshot the live query delivers, the todos are
    exactly the snapshot's documents, one object per document and in the
    snapshot's order, whatever the todos were before: each object carries
    every stored field of its document, nothing else apart from [id], and
    the document's id under [id] when the document stores no field of that
    name. No other event but the first render of a new instance writes the
    todos: nothing is retained, merged or filtered locally. *)
Theorem snapshot_replaces_todos {S : Type} (B : Backend S)
    (docs : list snapshot_doc) (w : @world S) :
  (snapshot_next docs w).1 = Normal tt
  /\ todos (ui (snapshot_next docs w).2) = map toTodo docs
  /\ Forall2
       (fun t d =>
          (forall k v, doc_data d !! k = Some v -> t !! k = Some v)
          /\ (forall k, k <> k_id -> t !! k = doc_data d !! k)
          /\ (doc_data d !! k_id = None -> todo_id t = Some (VStr (doc_id d))))
       (todos (ui (snapshot_next docs w).2)) docs
  /\ (forall h q,
        listeners w !! h = Some q ->
        todos (ui (dispatch B w (EvSnapshot h docs))) = map toTodo docs)
  /\ (forall ev,
        (forall h ds, ev <> EvSnapshot h ds) -> ev <> EvMount ->
        todos (ui (dispatch B w ev)) = todos (ui w)).
Proof.
  rewrite snapshot_next_run. simpl.
  split; [reflexivity|]. split; [reflexivity|]. split; [|split].
  - induction docs as [|d docs IH]; simpl; constructor; [|exact IH].
    split; [|split].
    + intros k v Hk. by rewrite toTodo_lookup, Hk.
    + intros k Hk. by apply toTodo_other_field.
    + intros Hnone. unfold todo_id. rewrite toTodo_lookup, Hnone.
      by rewrite decide_True.
  - intros h q Hlive. unfold dispatch, step. run_monad. by rewrite Hlive.
  - intros ev Hsnap Hmount. by apply step_keeps_todos.
Qed.

(** C2. Every document the create operation writes holds exactly the three
    fields [text], [completed] and [createdAt]: the text is the trimmed
    input, the flag is [false], the timestamp is the client's clock at the
    call. It holds no [id]: the one call to the store is an [addDoc] on the
    collection, which names no document, so the identifier is the store's
    to assign. *)
Theorem createTodo_document_shape {S : Type} (B : Backend S)
    (input : jsstring) (w : @world S) :
  written_docs (effects_since w (createTodo B input w).2)
    = (if decide (trim input = []) then []
       else [(todosCollection, new_todo_data (trim input) (clock w))])
  /\ backend_calls (effects_since w (createTodo B input w).2)
       = map (fun cd => CallAddDoc cd.1 cd.2)
             (written_docs (effects_since w (createTodo B input w).2))
  /\ dom (new_todo_data (trim input) (clock w))
       = {[k_text; k_completed; k_createdAt]}
  /\ new_todo_data (trim input) (clock w) !! k_text = Some (VStr (trim input))
  /\ new_todo_data (trim input) (clock w) !! k_completed = Some (VBool false)
  /\ new_todo_data (trim input) (clock w) !! k_createdAt = Some (VDate (clock w))
  /\ new_todo_data (trim input) (clock w) !! k_id = None.
Proof.
  split; [|split; [|split; [|split; [|split; [|split]]]]].
  - destruct (createTodo_cases B input w)
      as [[Hb ->]|[(Hne & r & s' & _ & ->)|(Hne & e & s' & _ & ->)]];
      simpl; rewrite effects_since_after.
    + by rewrite decide_True.
    + by rewrite decide_False.
    + by rewrite decide_False.
  - destruct (createTodo_cases B input w)
      as [[Hb ->]|[(Hne & r & s' & _ & ->)|(Hne & e & s' & _ & ->)]];
      simpl; rewrite effects_since_after; reflexivity.
  - apply new_todo_data_dom.
  - rewrite new_todo_data_lookup. reflexivity.
  - rewrite new_todo_data_lookup. reflexivity.
  - rewrite new_todo_data_lookup. reflexivity.
  - rewrite new_todo_data_lookup. reflexivity.
Qed.

Lemma toggle_fields_lookup (completed : bool) (k : jsstring) :
  toggle_fields completed !! k =
    if decide (k = k_completed) then Some (VBool (negb completed)) else None.
Proof.
  unfold toggle_fields, object_literal. cbn [foldl fst snd].
  case_decide; subst; by simplify_map_eq.
Qed.

(** C3, as stated, fails: for the empty id the client refuses to build the
    reference (the path "todos" alone is a collection), the error is caught
    on line 106, and no update is issued. *)
Lemma toggleTodo_refuses_empty_id :
  effects_since w_fresh
    (toggleTodo Firestore.backend (Some (VStr [])) (Some (VBool false)) w_fresh).2
  = [ConsoleError "Error updating todo:" (JSError "invalid-argument");
     AlertShown "Error" "Failed to update todo" []]
  /\ backend_calls
       (effects_since w_fresh
          (toggleTodo Firestore.backend (Some (VStr [])) (Some (VBool false))
             w_fresh).2)
     = [].
Proof. split; vm_compute; reflexivity. Qed.

(** C3 (amended). For every id the client accepts as a document of the
    collection (every document id is one) and every completion value
    passed, toggling issues one call to the store, an [updateDoc] on the
    document of that id; the fields it sends are [completed], set to the
    negation of the value passed, and no other, and the screen's own cells
    are not touched. So on any store whose [updateDoc] sets the fields it
    is given and nothing else, the document stays under its identifier
    with [completed] replaced and every other field (text, creation
    timestamp) as it was, and no other document changes. For an id the
    client refuses, no update is issued: the error is logged and shown as
    the alert. *)
Theorem toggleTodo_updates_completed_only {S : Type} (B : Backend S)
    (id : jsstring) (completed : option value) (w : @world S) :
  (is_document_id id = true -> doc_accepts todosCollection id = true)
  /\ (doc_accepts todosCollection id = true ->
      backend_calls
        (effects_since w (toggleTodo B (Some (VStr id)) completed w).2)
        = [CallUpdateDoc (doc todosCollection id)
             (toggle_fields (truthy completed))]
      /\ toggle_fields (truthy completed) !! k_completed
           = Some (VBool (negb (truthy completed)))
      /\ dom (toggle_fields (truthy completed)) = {[k_completed]}
      /\ ui (toggleTodo B (Some (VStr id)) completed w).2 = ui w
      /\ (forall read : S -> docref -> option obj,
            (forall r fields s s',
               be_updateDoc B r fields s = (Resolved tt, s') ->
               read s' r = (fun old => fields ∪ old) <$> read s r
               /\ (forall r', r' <> r -> read s' r' = read s r')) ->
            forall s' old,
              be_updateDoc B (doc todosCollection id)
                (toggle_fields (truthy completed)) (store w)
                = (Resolved tt, s') ->
              read (store w) (doc todosCollection id) = Some old ->
              (exists new,
                 read (store (toggleTodo B (Some (VStr id)) completed w).2)
                   (doc todosCollection id) = Some new
                 /\ new !! k_completed = Some (VBool (negb (truthy completed)))
                 /\ (forall k, k <> k_completed -> new !! k = old !! k))
              /\ (forall r',
                    r' <> doc todosCollection id ->
                    read (store (toggleTodo B (Some (VStr id)) completed w).2) r'
                      = read (store w) r')))
  /\ (doc_accepts todosCollection id = false ->
      effects_since w (toggleTodo B (Some (VStr id)) completed w).2
        = [ConsoleError "Error updating todo:" (JSError "invalid-argument");
           AlertShown "Error" "Failed to update todo" []]
      /\ ui (toggleTodo B (Some (VStr id)) completed w).2 = ui w).
Proof.
  split; [apply document_id_accepted|]. split.
  - intros Hok. pose proof (checked_doc_string todosCollection id Hok) as Hdoc.
    split; [|split; [|split; [|split]]].
    + destruct (be_updateDoc B (doc todosCollection id)
                  (toggle_fields (truthy completed)) (store w))
        as [[[]|e] s'] eqn:Hcall.
      * rewrite (toggleTodo_resolved B _ completed w _ s' Hdoc Hcall). simpl.
        by rewrite effects_since_after.
      * rewrite (toggleTodo_rejected B _ completed w _ e s' Hdoc Hcall). simpl.
        by rewrite effects_since_after.
    + rewrite toggle_fields_lookup. by rewrite decide_True.
    + unfold toggle_fields, object_literal. cbn [foldl fst snd].
      rewrite dom_insert_L, dom_empty_L. set_solver.
    + destruct (be_updateDoc B (doc todosCollection id)
                  (toggle_fields (truthy completed)) (store w))
        as [[[]|e] s'] eqn:Hcall.
      * by rewrite (toggleTodo_resolved B _ completed w _ s' Hdoc Hcall).
      * by rewrite (toggleTodo_rejected B _ completed w _ e s' Hdoc Hcall).
    + intros read Hmerge s' old Hcall Hold.
      rewrite (toggleTodo_resolved B _ completed w _ s' Hdoc Hcall). simpl.
      destruct (Hmerge _ _ _ _ Hcall) as [Hnew Hothers].
      rewrite Hold in Hnew. simpl in Hnew. split; [|exact Hothers].
      exists (toggle_fields (truthy completed) ∪ old).
      split; [exact Hnew|]. split.
      * rewrite lookup_union, toggle_fields_lookup, decide_True by reflexivity.
        by destruct (old !! k_completed).
      * intros k Hk.
        rewrite lookup_union, toggle_fields_lookup, decide_False by exact Hk.
        by rewrite (left_id_L None _).
  - intros Hbad.
    assert (checked_doc todosCollection (Some (VStr id))
            = Rejected (JSError "invalid-argument")) as Hdoc
      by (unfold checked_doc; by rewrite Hbad).
    rewrite (toggleTodo_refused B _ completed w _ Hdoc). simpl.
    by rewrite effects_since_after.
Qed.

(** The reference store's [updateDoc] sets the fields it is given and
    nothing else. *)
Lemma Firestore_updateDoc_contract (r : docref) (fields : obj)
    (st st' : Firestore.state) :
  Firestore.updateDoc r fields st = (Resolved tt, st') ->
  Firestore.documents st' !! Firestore.key r
    = (fun old => fields ∪ old) <$> Firestore.documents st !! Firestore.key r
  /\ (forall r', r' <> r ->
        Firestore.documents st' !! Firestore.key r'
          = Firestore.documents st !! Firestore.key r').
Proof.
  unfold Firestore.updateDoc.
  destruct (Firestore.failing st); [discriminate|].
  destruct (Firestore.documents st !! Firestore.key r) as [old|] eqn:Hold;
    [|discriminate].
  intros [= <-]. simpl. split.
  - by rewrite lookup_insert_eq.
  - intros r' Hr'. rewrite lookup_insert_ne; [reflexivity|].
    destruct r, r'. unfold Firestore.key. simpl. congruence.
Qed.

(** No run of events leaves an error unhandled. *)
Lemma run_events_unhandled {S : Type} (B : Backend S)
    (evs : list ui_event) (w : @world S) :
  unhandled (run_events B evs w) = unhandled w.
Proof.
  revert w. induction evs as [|ev evs IH]; intros w; [reflexivity|].
  rewrite run_events_cons, IH.
  by destruct (dispatch_step B ev w) as (l & _ & _ & Hun).
Qed.

(** C4. Whatever error the store or the auth provider raises, in the
    subscription's error callback, in create, toggle, delete or logout, the
    handler catches it and ends normally: it logs the error to the console
    and shows the alert "Error" with a message fixed per operation, the
    same for every error; it calls the store once and not again, and
    raises nothing. The same holds when the client refuses to build the
    document reference, for a toggle or a delete: the error thrown by
    [doc] is caught, and the store is not called. Over any sequence of
    events no error is left unhandled. *)
Theorem store_failures_end_in_an_alert {S : Type} (B : Backend S)
    (w : @world S) (e : jserror) :
  snapshot_error e w =
    (Normal tt,
     after w (ScreenState (todos (ui w)) (inputText (ui w)) false)
       [default_buttons] (store w)
       [ConsoleError "Error fetching todos:" e;
        AlertShown "Error" "Failed to load todos" [];
        SetLoading false])
  /\ (forall input s',
        trim input <> [] ->
        be_addDoc B todosCollection (new_todo_data (trim input) (clock w))
          (store w) = (Rejected e, s') ->
        createTodo B input w =
          (Normal tt,
           after w (ui w) [default_buttons] s'
             [CallAddDoc todosCollection (new_todo_data (trim input) (clock w));
              ConsoleError "Error adding todo:" e;
              AlertShown "Error" "Failed to add todo" []]))
  /\ (forall id completed s',
        doc_accepts todosCollection id = true ->
        be_updateDoc B (doc todosCollection id) (toggle_fields completed)
          (store w) = (Rejected e, s') ->
        toggleTodo B (Some (VStr id)) (Some (VBool completed)) w =
          (Normal tt,
           after w (ui w) [default_buttons] s'
             [CallUpdateDoc (doc todosCollection id) (toggle_fields completed);
              ConsoleError "Error updating todo:" e;
              AlertShown "Error" "Failed to update todo" []]))
  /\ (forall id s',
        doc_accepts todosCollection id = true ->
        be_deleteDoc B (doc todosCollection id) (store w) = (Rejected e, s') ->
        run_handler B (OnConfirmDelete (Some (VStr id))) w =
          (Normal tt,
           after w (ui w) [default_buttons] s'
             [CallDeleteDoc (doc todosCollection id);
              ConsoleError "Error deleting todo:" e;
              AlertShown "Error" "Failed to delete todo" []]))
  /\ (forall id completed,
        checked_doc todosCollection id = Rejected e ->
        toggleTodo B id completed w =
          (Normal tt,
           after w (ui w) [default_buttons] (store w)
             [ConsoleError "Error updating todo:" e;
              AlertShown "Error" "Failed to update todo" []]))
  /\ (forall id,
        checked_doc todosCollection id = Rejected e ->
        run_handler B (OnConfirmDelete id) w =
          (Normal tt,
           after w (ui w) [default_buttons] (store w)
             [ConsoleError "Error deleting todo:" e;
              AlertShown "Error" "Failed to delete todo" []]))
  /\ (forall s',
        be_logout B (store w) = (Rejected e, s') ->
        run_handler B OnConfirmLogout w =
          (Normal tt,
           after w (ui w) [default_buttons] s'
             [CallLogout;
              ConsoleError "Error logging out:" e;
              AlertShown "Error" "Logout failed" []]))
  /\ (forall evs, unhandled (run_events B evs w) = unhandled w).
Proof.
  split; [apply snapshot_error_run|].
  split; [intros input s' Hne Hcall; by apply createTodo_rejected|].
  split.
  { intros id completed s' Hok Hcall.
    apply (toggleTodo_rejected B _ (Some (VBool completed)) w
             (doc todosCollection id) e s');
      [by apply checked_doc_string | exact Hcall]. }
  split.
  { intros id s' Hok Hcall.
    apply (confirm_delete_rejected B _ w (doc todosCollection id) e s');
      [by apply checked_doc_string | exact Hcall]. }
  split; [intros id completed Hdoc; by apply toggleTodo_refused|].
  split; [intros id Hdoc; by apply confirm_delete_refused|].
  split; [intros s' Hcall; by apply confirm_logout_rejected|].
  intros evs. apply run_events_unhandled.
Qed.

(** C5, as stated, fails: an input of three spaces is rejected on the
    client. The store is never called; the user sees "Please enter a todo
    item" and the input stays as typed. *)
Lemma createTodo_rejects_blank_input :
  effects_since (initial_world Firestore.empty 0)
    (createTodo Firestore.backend (lit "   ") (initial_world Firestore.empty 0)).2
  = [AlertShown "Error" "Please enter a todo item" []]
  /\ written_docs
       (effects_since (initial_world Firestore.empty 0)
          (createTodo Firestore.backend (lit "   ")
             (initial_world Firestore.empty 0)).2)
     = [].
Proof. split; vm_compute; reflexivity. Qed.

(** C5 (amended). The create operation validates one thing, that the
    trimmed input is not empty. An input whose trimmed text is not empty is
    forwarded, trimmed, to the store in one insert call, whatever its
    content; an input that is empty or all white space is rejected on the
    client with an alert, and neither the store nor the screen's cells
    change. *)
Theorem createTodo_forwards_nonblank_text {S : Type} (B : Backend S)
    (input : jsstring) (w : @world S) :
  (trim input <> [] ->
   written_docs (effects_since w (createTodo B input w).2)
     = [(todosCollection, new_todo_data (trim input) (clock w))]
   /\ alerts (effects_since w (createTodo B input w).2)
        <> [AlertShown "Error" "Please enter a todo item" []])
  /\ (trim input = [] ->
      effects_since w (createTodo B input w).2
        = [AlertShown "Error" "Please enter a todo item" []]
      /\ store (createTodo B input w).2 = store w
      /\ ui (createTodo B input w).2 = ui w).
Proof.
  destruct (createTodo_cases B input w)
    as [[Hb ->]|[(Hne & r & s' & _ & ->)|(Hne & e & s' & _ & ->)]];
    simpl; rewrite effects_since_after; split; intros H; try contradiction.
  - auto.
  - split; [reflexivity | discriminate].
  - split; [reflexivity | discriminate].
Qed.

(** ** The subscription *)

Section Subscription.
Context {S : Type} (B : Backend S).
Implicit Types (w : @world S) (ev : ui_event).

Lemma mount_again w : mounted w = true -> dispatch B w EvMount = w.
Proof. intros Hm. unfold dispatch, step. run_monad. by rewrite Hm. Qed.

Lemma unmount_idle w : mounted w = false -> dispatch B w EvUnmount = w.
Proof. intros Hm. unfold dispatch, step. run_monad. by rewrite Hm. Qed.

Lemma unmount_without_cleanup w :
  mounted w = true -> cleanup w = None ->
  dispatch B w EvUnmount = set_mounted false None w.
Proof.
  intros Hm Hc. unfold dispatch, step. run_monad.
  rewrite Hm; simpl. by rewrite Hc.
Qed.

(** Apart from mounting and unmounting, an event leaves the listeners as
    they are or, for a listener's error, drops that listener. *)
Lemma step_listeners ev w :
  ev <> EvMount -> ev <> EvUnmount ->
  listeners (dispatch B w ev) = listeners w
  \/ exists h q,
       listeners w !! h = Some q
       /\ listeners (dispatch B w ev) = delete h (listeners w).
Proof.
  intros Hmount Hunmount. unfold dispatch.
  step_cases ev; try congruence; try (left; reflexivity).
  right. eauto.
Qed.

Lemma one_subscription_step ev w :
  one_subscription w -> one_subscription (dispatch B w ev).
Proof.
  intros Hinv.
  assert (ev = EvMount \/ ev = EvUnmount \/ (ev <> EvMount /\ ev <> EvUnmount))
    as [->|[->|[Hmount Hunmount]]]
    by (destruct ev; auto; right; right; split; discriminate).
  - destruct (mounted w) eqn:Hm; [by rewrite mount_again|].
    rewrite mount_run by exact Hm.
    destruct Hinv as [Hl|(Hm' & _)]; [|congruence].
    right. simpl. split; [reflexivity|].
    exists (next_listener w). by rewrite Hl, insert_empty.
  - destruct (mounted w) eqn:Hm; [|by rewrite unmount_idle].
    left. destruct (cleanup w) as [h|] eqn:Hc.
    + rewrite (unmount_run B w h Hm Hc). simpl.
      destruct Hinv as [Hl|(_ & h' & Hc' & Hl)]; rewrite Hl.
      * apply delete_empty.
      * assert (h' = h) as -> by congruence. apply delete_singleton_eq.
    + rewrite (unmount_without_cleanup w Hm Hc). simpl.
      destruct Hinv as [Hl|(_ & h' & Hc' & _)]; [exact Hl | congruence].
  - destruct (step_keeps_instance B ev w Hmount Hunmount) as (Hm & Hc & _).
    unfold one_subscription. rewrite Hm, Hc.
    destruct (step_listeners ev w Hmount Hunmount) as [->|(h & q & Hh & ->)];
      [exact Hinv|].
    left. destruct Hinv as [Hl|(_ & h' & _ & Hl)]; rewrite Hl in *.
    + apply delete_empty.
    + apply lookup_singleton_Some in Hh as [-> _]. apply delete_singleton_eq.
Qed.

Lemma one_subscription_run (evs : list ui_event) w :
  one_subscription w -> one_subscription (run_events B evs w).
Proof.
  revert w. induction evs as [|ev evs IH]; intros w Hinv; [exact Hinv|].
  rewrite run_events_cons. apply IH. by apply one_subscription_step.
Qed.

Lemma one_subscription_size w : one_subscription w -> (size (listeners w) <= 1)%nat.
Proof.
  intros [->|(_ & h & _ & ->)].
  - rewrite map_size_empty. lia.
  - rewrite map_size_singleton. lia.
Qed.

Lemma one_subscription_unmounted w :
  one_subscription w -> mounted w = false -> listeners w = ∅.
Proof. intros [Hl|(Hm & _)] Hoff; [exact Hl | congruence]. Qed.

(** Between a mount and the next unmount the log gains no subscription
    event, the instance stays, and the cleanup stays. *)
Lemma run_keeps_instance (evs : list ui_event) w :
  Forall (fun ev => ev <> EvMount /\ ev <> EvUnmount) evs ->
  mounted (run_events B evs w) = mounted w
  /\ cleanup (run_events B evs w) = cleanup w
  /\ List.filter is_subscribe (log (run_events B evs w))
       = List.filter is_subscribe (log w)
  /\ List.filter is_unsubscribe (log (run_events B evs w))
       = List.filter is_unsubscribe (log w).
Proof.
  revert w. induction evs as [|ev evs IH]; intros w Hevs; [done|].
  apply Forall_cons in Hevs as [[Hmount Hunmount] Hevs].
  rewrite run_events_cons.
  destruct (IH (dispatch B w ev) Hevs) as (-> & -> & -> & ->).
  destruct (step_keeps_instance B ev w Hmount Hunmount) as (-> & -> & Hs & Hu).
  destruct (dispatch_step B ev w) as (l & _ & Hlog & _).
  rewrite (effects_since_app w _ l Hlog) in Hs, Hu.
  rewrite Hlog, !List.filter_app, Hs, Hu, !app_nil_r. done.
Qed.

End Subscription.

Lemma one_subscription_initial {S : Type} (s : S) (t : Z) :
  one_subscription (initial_world s t).
Proof. left. reflexivity. Qed.

(** The first display: the effect opens the live query under handle 0. *)
Lemma mount_initial {S : Type} (B : Backend S) (s : S) (t : Z) :
  dispatch B (initial_world s t) EvMount =
    World initial_state true (Some 0%nat) [] {[0%nat := todos_query]} 1%nat
      s t [] [ConsoleLog "todos" []; CallOnSnapshot todos_query 0].
Proof.
  rewrite mount_run by reflexivity. unfold initial_world.
  cbn [ui dialogs listeners next_listener store clock unhandled log app].
  by rewrite insert_empty.
Qed.

(** C6. The screen manages one foreign subscription. Over any sequence of
    events from the first display, the Firestore client holds at most one
    listener for the screen, and none while no instance is mounted;
    unmounting leaves none open. Over the life of one instance (a mount,
    any events that are neither a mount nor an unmount, and the unmount)
    the log shows the subscription opened exactly once, on the query of the
    todos, and closed exactly once, that same subscription, by the
    unmount. *)
Theorem one_subscription_per_mount {S : Type} (B : Backend S)
    (s : S) (t : Z) (evs : list ui_event) :
  (size (listeners (run_events B evs (initial_world s t))) <= 1)%nat
  /\ (mounted (run_events B evs (initial_world s t)) = false ->
      listeners (run_events B evs (initial_world s t)) = ∅)
  /\ listeners (dispatch B (run_events B evs (initial_world s t)) EvUnmount) = ∅
  /\ (Forall (fun ev => ev <> EvMount /\ ev <> EvUnmount) evs ->
      List.filter is_subscribe
        (log (run_events B (EvMount :: evs ++ [EvUnmount]) (initial_world s t)))
        = [CallOnSnapshot todos_query 0]
      /\ List.filter is_unsubscribe
           (log (run_events B (EvMount :: evs ++ [EvUnmount]) (initial_world s t)))
           = [CallUnsubscribe 0]
      /\ List.filter is_unsubscribe
           (log (run_events B (EvMount :: evs) (initial_world s t))) = []
      /\ listeners (run_events B (EvMount :: evs ++ [EvUnmount]) (initial_world s t))
           = ∅).
Proof.
  pose proof (one_subscription_run B evs _ (one_subscription_initial s t)) as Hinv.
  split; [by apply one_subscription_size|].
  split; [by apply one_subscription_unmounted|].
  split.
  { apply one_subscription_unmounted.
    - by apply one_subscription_step.
    - by apply unmount_mounted. }
  intros Hevs.
  change (EvMount :: evs ++ [EvUnmount]) with ((EvMount :: evs) ++ [EvUnmount]).
  rewrite run_events_snoc, !run_events_cons.
  rewrite mount_initial.
  set (w1 := World initial_state true (Some 0%nat) [] _ _ s t [] _).
  destruct (run_keeps_instance B evs w1 Hevs) as (Hm & Hc & Hsub & Hunsub).
  rewrite (unmount_run B (run_events B evs w1) 0 Hm Hc). simpl.
  rewrite !List.filter_app, Hsub, Hunsub. simpl.
  repeat split.
  assert (one_subscription w1) as Hinv1.
  { right. split; [reflexivity|]. by exists 0%nat. }
  destruct (one_subscription_run B evs w1 Hinv1) as [Hl|(_ & h & Hc' & Hl)];
    rewrite Hl.
  - apply delete_empty.
  - assert (cleanup (run_events B evs w1) = Some 0%nat) as Hc0 by exact Hc.
    assert (h = 0%nat) as -> by congruence. apply delete_singleton_eq.
Qed.

(** C7. Each mutation calls the store at most once per invocation: create
    at most once, toggle at most once (once exactly when the client accepts
    the id), delete never before the confirmation and at most once on it.
    When the call fails nothing is retried: the log holds the one call, the
    console line and the one alert, and no cell of the screen is written;
    when the client refuses the id, the log holds the console line and the
    alert, and no call at all. *)
Theorem mutations_are_fire_and_forget {S : Type} (B : Backend S) (w : @world S) :
  (forall input,
     (length (backend_calls (effects_since w (createTodo B input w).2)) <= 1)%nat)
  /\ (forall id completed,
        (length (backend_calls (effects_since w (toggleTodo B id completed w).2))
         <= 1)%nat)
  /\ (forall id completed r,
        checked_doc todosCollection id = Resolved r ->
        backend_calls (effects_since w (toggleTodo B id completed w).2)
          = [CallUpdateDoc r (toggle_fields (truthy completed))])
  /\ (forall id,
        backend_calls (effects_since w (deleteTodo id w).2) = []
        /\ (length (backend_calls
                      (effects_since w (run_handler B (OnConfirmDelete id) w).2))
            <= 1)%nat)
  /\ (forall input e s',
        trim input <> [] ->
        be_addDoc B todosCollection (new_todo_data (trim input) (clock w))
          (store w) = (Rejected e, s') ->
        effects_since w (createTodo B input w).2
          = [CallAddDoc todosCollection (new_todo_data (trim input) (clock w));
             ConsoleError "Error adding todo:" e;
             AlertShown "Error" "Failed to add todo" []]
        /\ ui (createTodo B input w).2 = ui w)
  /\ (forall id completed r e s',
        checked_doc todosCollection id = Resolved r ->
        be_updateDoc B r (toggle_fields (truthy completed)) (store w)
          = (Rejected e, s') ->
        effects_since w (toggleTodo B id completed w).2
          = [CallUpdateDoc r (toggle_fields (truthy completed));
             ConsoleError "Error updating todo:" e;
             AlertShown "Error" "Failed to update todo" []]
        /\ ui (toggleTodo B id completed w).2 = ui w)
  /\ (forall id r e s',
        checked_doc todosCollection id = Resolved r ->
        be_deleteDoc B r (store w) = (Rejected e, s') ->
        effects_since w (run_handler B (OnConfirmDelete id) w).2
          = [CallDeleteDoc r;
             ConsoleError "Error deleting todo:" e;
             AlertShown "Error" "Failed to delete todo" []]
        /\ ui (run_handler B (OnConfirmDelete id) w).2 = ui w)
  /\ (forall id completed e,
        checked_doc todosCollection id = Rejected e ->
        effects_since w (toggleTodo B id completed w).2
          = [ConsoleError "Error updating todo:" e;
             AlertShown "Error" "Failed to update todo" []]
        /\ ui (toggleTodo B id completed w).2 = ui w)
  /\ (forall id e,
        checked_doc todosCollection id = Rejected e ->
        effects_since w (run_handler B (OnConfirmDelete id) w).2
          = [ConsoleError "Error deleting todo:" e;
             AlertShown "Error" "Failed to delete todo" []]
        /\ ui (run_handler B (OnConfirmDelete id) w).2 = ui w).
Proof.
  split; [|split; [|split; [|split; [|split; [|split; [|split; [|split]]]]]]].
  - intros input.
    destruct (createTodo_cases B input w)
      as [[Hb ->]|[(Hne & r & s' & _ & ->)|(Hne & e & s' & _ & ->)]];
      simpl; rewrite effects_since_after; simpl; lia.
  - intros id completed.
    destruct (toggleTodo_cases B id completed w)
      as [(e & _ & ->)|[(r & s' & _ & _ & ->)|(r & e & s' & _ & _ & ->)]];
      simpl; rewrite effects_since_after; simpl; lia.
  - intros id completed r Hdoc.
    destruct (toggleTodo_cases B id completed w)
      as [(e & Hno & _)|[(r' & s' & Hr & _ & ->)|(r' & e & s' & Hr & _ & ->)]];
      [congruence| |];
      simpl; rewrite effects_since_after; simpl; congruence.
  - intros id. split.
    + rewrite deleteTodo_run. simpl. by rewrite effects_since_after.
    + destruct (confirm_delete_cases B id w)
        as [(e & _ & ->)|[(r & s' & _ & _ & ->)|(r & e & s' & _ & _ & ->)]];
        simpl; rewrite effects_since_after; simpl; lia.
  - intros input e s' Hne Hcall.
    rewrite (createTodo_rejected B input w e s' Hne Hcall). simpl.
    by rewrite effects_since_after.
  - intros id completed r e s' Hdoc Hcall.
    rewrite (toggleTodo_rejected B id completed w r e s' Hdoc Hcall). simpl.
    by rewrite effects_since_after.
  - intros id r e s' Hdoc Hcall.
    rewrite (confirm_delete_rejected B id w r e s' Hdoc Hcall). simpl.
    by rewrite effects_since_after.
  - intros id completed e Hdoc.
    rewrite (toggleTodo_refused B id completed w e Hdoc). simpl.
    by rewrite effects_since_after.
  - intros id e Hdoc.
    rewrite (confirm_delete_refused B id w e Hdoc). simpl.
    by rewrite effects_since_after.
Qed.

(** ** Confirmation dialogs *)

Section Dialogs.
Context {S : Type} (B : Backend S).
Implicit Types (w : @world S) (ev : ui_event).

(** Pressing a button that has no [onPress] dismisses the alert. *)
Lemma press_plain_button w (d n : nat) (bs : list alert_button)
    (text : string) (style : alert_style) :
  dialogs w !! d = Some bs ->
  bs !! n = Some (AlertButton text style None) ->
  dispatch B w (EvPressAlertButton d n) = dismiss d w.
Proof.
  intros Hd Hn. unfold dispatch, step. run_monad. rewrite Hd, Hn. reflexivity.
Qed.

(** Pressing a button that has one dismisses the alert and runs it. *)
Lemma press_handler_button w (d n : nat) (bs : list alert_button)
    (text : string) (style : alert_style) (h : handler) :
  dialogs w !! d = Some bs ->
  bs !! n = Some (AlertButton text style (Some h)) ->
  step B (EvPressAlertButton d n) w = run_handler B h (dismiss d w).
Proof.
  intros Hd Hn. unfold step. run_monad. rewrite Hd, Hn.
  destruct h; reflexivity.
Qed.

(** Only a press on an alert's button deletes or logs out. *)
Lemma step_no_delete_or_logout ev w :
  (forall d n, ev <> EvPressAlertButton d n) ->
  Forall (fun e => is_delete_or_logout e = false)
    (effects_since w (dispatch B w ev)).
Proof.
  intros Hev. unfold dispatch, effects_since.
  step_cases ev; try (exfalso; exact (Hev _ _ eq_refl)).
  all: simpl; rewrite <- ?app_assoc, ?drop_app_length, ?drop_all.
  all: repeat constructor.
Qed.

End Dialogs.

Lemma dispatch_confirm {S : Type} (B : Backend S) (w : @world S) (d : nat)
    (bs : list alert_button) (text : string) (style : alert_style) (h : handler) :
  dialogs w !! d = Some bs ->
  bs !! 1%nat = Some (AlertButton text style (Some h)) ->
  dispatch B w (EvPressAlertButton d 1) = (run_handler B h (dismiss d w)).2.
Proof.
  intros Hd Hn. unfold dispatch.
  rewrite (press_handler_button B w d 1 bs text style h Hd Hn).
  destruct h as [id|].
  - destruct (confirm_delete_cases B id (dismiss d w))
      as [(e & _ & ->)|[(r & s' & _ & _ & ->)|(r & e & s' & _ & _ & ->)]];
      reflexivity.
  - destruct (confirm_logout_cases B (dismiss d w))
      as [(s' & _ & ->)|(e & s' & _ & ->)]; reflexivity.
Qed.

(** The store calls of a confirmed delete: the one [deleteDoc], when the
    client accepts the id. *)
Lemma confirm_delete_calls {S : Type} (B : Backend S) (w w0 : @world S)
    (id : option value) :
  log w = log w0 ->
  backend_calls (effects_since w0 (run_handler B (OnConfirmDelete id) w).2)
    = match checked_doc todosCollection id with
      | Resolved r => [CallDeleteDoc r]
      | Rejected _ => []
      end.
Proof.
  intros Hlog. unfold effects_since. rewrite <- Hlog.
  destruct (confirm_delete_cases B id w)
    as [(e & -> & ->)|[(r & s' & -> & _ & ->)|(r & e & s' & -> & _ & ->)]];
    simpl; by rewrite drop_app_length.
Qed.

(** C8. Delete and logout reach the store only through the confirming
    button. Each operation shows a dialog with Cancel and a confirming
    button and calls nothing. Pressing Cancel dismisses the dialog and
    nothing else: no call is made, and the cells, the store, the listeners
    and the log are as before. Pressing the confirming button makes at most
    the one call: the logout, or the delete of that document (none when the
    client refuses the id, the error then being shown). No event other than
    a press on an alert's button ever deletes or logs out. *)
Theorem delete_and_logout_wait_for_confirmation {S : Type} (B : Backend S)
    (w : @world S) :
  (forall id,
     deleteTodo id w =
       (Normal tt,
        after w (ui w) [delete_buttons id] (store w)
          [AlertShown "Delete Todo" "Are you sure you want to delete this todo?"
             (delete_buttons id)]))
  /\ handleLogout w =
       (Normal tt,
        after w (ui w) [logout_buttons] (store w)
          [AlertShown "Logout" "Are you sure you want to logout?" logout_buttons])
  /\ (forall d id,
        dialogs w !! d = Some (delete_buttons id) ->
        dispatch B w (EvPressAlertButton d 0) = dismiss d w
        /\ backend_calls (effects_since w (dispatch B w (EvPressAlertButton d 1)))
             = match checked_doc todosCollection id with
               | Resolved r => [CallDeleteDoc r]
               | Rejected _ => []
               end)
  /\ (forall d id,
        dialogs w !! d = Some (delete_buttons (Some (VStr id))) ->
        doc_accepts todosCollection id = true ->
        backend_calls (effects_since w (dispatch B w (EvPressAlertButton d 1)))
          = [CallDeleteDoc (doc todosCollection id)])
  /\ (forall d,
        dialogs w !! d = Some logout_buttons ->
        dispatch B w (EvPressAlertButton d 0) = dismiss d w
        /\ backend_calls (effects_since w (dispatch B w (EvPressAlertButton d 1)))
             = [CallLogout])
  /\ (forall d,
        ui (dismiss d w) = ui w /\ store (dismiss d w) = store w
        /\ listeners (dismiss d w) = listeners w /\ log (dismiss d w) = log w)
  /\ (forall ev,
        (forall d n, ev <> EvPressAlertButton d n) ->
        Forall (fun e => is_delete_or_logout e = false)
          (effects_since w (dispatch B w ev))).
Proof.
  split; [intros id; apply deleteTodo_run|].
  split; [apply handleLogout_run|].
  split; [|split; [|split; [|split]]].
  - intros d id Hd. split.
    + by apply press_plain_button with (delete_buttons id) "Cancel" StyleCancel.
    + rewrite (dispatch_confirm B w d (delete_buttons id) "Delete"
                 StyleDestructive (OnConfirmDelete id) Hd eq_refl).
      by apply confirm_delete_calls.
  - intros d id Hd Hok.
    rewrite (dispatch_confirm B w d (delete_buttons (Some (VStr id))) "Delete"
               StyleDestructive (OnConfirmDelete (Some (VStr id))) Hd eq_refl).
    rewrite (confirm_delete_calls B (dismiss d w) w _ eq_refl).
    by rewrite (checked_doc_string todosCollection id Hok).
  - intros d Hd. split.
    + by apply press_plain_button with logout_buttons "Cancel" StyleCancel.
    + rewrite (dispatch_confirm B w d logout_buttons "Logout"
                 StyleDestructive OnConfirmLogout Hd eq_refl).
      change (effects_since w ?x) with (effects_since (dismiss d w) x).
      destruct (confirm_logout_cases B (dismiss d w))
        as [(s' & _ & ->)|(e & s' & _ & ->)];
        simpl; rewrite effects_since_after; reflexivity.
  - intros d. repeat split.
  - intros ev Hev. by apply step_no_delete_or_logout.
Qed.

(** C9. The create operation clears the input only after the insert has
    succeeded: on success the log is the insert followed by the clearing of
    the input, and the input is then empty; when the insert fails, and when
    the input is blank, no cell is written and the input stays as it was.
    The text of every document written is the trimmed input: it starts and
    ends with no white space, and it differs from the raw input whenever
    trimming changes the input. *)
Theorem createTodo_clears_input_after_success {S : Type} (B : Backend S)
    (input : jsstring) (w : @world S) :
  (forall r s',
     trim input <> [] ->
     be_addDoc B todosCollection (new_todo_data (trim input) (clock w)) (store w)
       = (Resolved r, s') ->
     effects_since w (createTodo B input w).2
       = [CallAddDoc todosCollection (new_todo_data (trim input) (clock w));
          SetInputText []]
     /\ inputText (ui (createTodo B input w).2) = [])
  /\ (forall e s',
        trim input <> [] ->
        be_addDoc B todosCollection (new_todo_data (trim input) (clock w)) (store w)
          = (Rejected e, s') ->
        ui (createTodo B input w).2 = ui w
        /\ List.filter is_state_write (effects_since w (createTodo B input w).2) = [])
  /\ (trim input = [] ->
      ui (createTodo B input w).2 = ui w
      /\ List.filter is_state_write (effects_since w (createTodo B input w).2) = [])
  /\ Forall (fun cd => cd.2 !! k_text = Some (VStr (trim input)))
       (written_docs (effects_since w (createTodo B input w).2))
  /\ (forall c rest, trim input = c :: rest -> is_js_whitespace c = false)
  /\ (forall c init, trim input = init ++ [c] -> is_js_whitespace c = false)
  /\ trim (trim input) = trim input.
Proof.
  split; [|split; [|split; [|split; [|split; [|split]]]]].
  - intros r s' Hne Hcall.
    rewrite (createTodo_resolved B input w r s' Hne Hcall). simpl.
    by rewrite effects_since_after.
  - intros e s' Hne Hcall.
    rewrite (createTodo_rejected B input w e s' Hne Hcall). simpl.
    by rewrite effects_since_after.
  - intros Hblank. rewrite (createTodo_blank B input w Hblank). simpl.
    by rewrite effects_since_after.
  - destruct (createTodo_cases B input w)
      as [[Hb ->]|[(Hne & r & s' & _ & ->)|(Hne & e & s' & _ & ->)]];
      simpl; rewrite effects_since_after; simpl; repeat constructor;
      simpl; rewrite new_todo_data_lookup; reflexivity.
  - apply trim_head.
  - apply trim_last.
  - apply trim_idempotent.
Qed.

(** ** Order *)

Lemma ordered_by_fmap_ext {A : Type} (R : option value -> option value -> Prop)
    (field : jsstring) (f g : A -> obj) (l : list A) :
  (forall x, g x !! field = f x !! field) ->
  ordered_by R field (map f l) -> ordered_by R field (map g l).
Proof.
  intros Hfg. unfold ordered_by.
  induction l as [|x l IH]; simpl; intros Hs; [constructor|].
  apply StronglySorted_inv in Hs as [Hs Hall].
  constructor; [by apply IH|].
  apply (proj2 (List.Forall_map g (fun b => R (g x !! field) (b !! field)) l)).
  apply (proj1 (List.Forall_map f (fun b => R (f x !! field) (b !! field)) l))
    in Hall.
  revert Hall. apply List.Forall_impl. intros z Hz. by rewrite !Hfg.
Qed.

(** C10. The live query is opened on the collection of the todos ordered by
    [createdAt], descending, and the snapshot callback neither sorts nor
    drops: the rows on screen are the snapshot's documents in the
    snapshot's order, each with the creation timestamp of its document. So
    whenever a snapshot comes in an order on [createdAt] (the descending
    one the query asks for, [newest_first], among them), the rows on screen
    are in that order. *)
Theorem displayed_in_query_order {S : Type} (B : Backend S)
    (R : option value -> option value -> Prop)
    (docs : list snapshot_doc) (w : @world S) :
  ordered_by R k_createdAt (map doc_data docs) ->
  displayed (ui (snapshot_next docs w).2) = map toTodo docs
  /\ map todo_createdAt (displayed (ui (snapshot_next docs w).2))
       = map (fun d => doc_data d !! k_createdAt) docs
  /\ ordered_by R k_createdAt (displayed (ui (snapshot_next docs w).2))
  /\ todos_query = Query todosCollection [(k_createdAt, Desc)]
  /\ (mounted w = false ->
      List.filter is_subscribe (effects_since w (dispatch B w EvMount))
        = [CallOnSnapshot todos_query (next_listener w)]).
Proof.
  intros Hsorted. rewrite snapshot_next_run. unfold displayed. simpl.
  split; [reflexivity|]. split; [|split; [|split]].
  - rewrite map_map. apply map_ext. intros d. unfold todo_createdAt.
    apply toTodo_other_field. discriminate.
  - apply ordered_by_fmap_ext with doc_data; [|exact Hsorted].
    intros d. apply toTodo_other_field. discriminate.
  - reflexivity.
  - intros Hm. rewrite (mount_run B w Hm). unfold effects_since. simpl.
    by rewrite drop_app_length.
Qed.

(** * Runs on the reference store *)

(** C3 on the store that holds the todo "milk" under "a", not completed:
    after the toggle the document is completed and still says "milk". *)
Lemma toggleTodo_witness :
  exists new,
    Firestore.documents
      (store (toggleTodo Firestore.backend (Some (VStr (lit "a")))
                (Some (VBool false)) (initial_world sample_store sample_time)).2)
      !! (todosCollection, lit "a") = Some new
    /\ new !! k_completed = Some (VBool true)
    /\ new !! k_text = Some (VStr (lit "milk"))
    /\ new !! k_createdAt = Some (VDate 1000).
Proof.
  destruct (toggleTodo_updates_completed_only Firestore.backend (lit "a")
              (Some (VBool false)) (initial_world sample_store sample_time))
    as (_ & Haccepted & _).
  destruct Haccepted as (_ & _ & _ & _ & Hstore); [vm_compute; reflexivity|].
  destruct (Hstore
              (fun st r => Firestore.documents st !! Firestore.key r)
              Firestore_updateDoc_contract
              (Firestore.State
                 (<[(todosCollection, lit "a") := toggle_fields false ∪ sample_doc]>
                    (Firestore.documents sample_store))
                 1%nat true None)
              sample_doc)
    as [(new & Hnew & Hflag & Hrest) _].
  - vm_compute. reflexivity.
  - vm_compute. reflexivity.
  - exists new. split; [exact Hnew|]. split; [exact Hflag|].
    rewrite !Hrest by discriminate. split; vm_compute; reflexivity.
Defined.

(** C4 on the store that rejects every call: the failed insert ends in the
    alert, normally. *)
Lemma store_failures_witness :
  createTodo Firestore.backend (lit " milk ") w_down =
    (Normal tt,
     after w_down (ui w_down) [default_buttons] Firestore.unavailable
       [CallAddDoc todosCollection (new_todo_data (trim (lit " milk ")) sample_time);
        ConsoleError "Error adding todo:" (JSError "unavailable");
        AlertShown "Error" "Failed to add todo" []]).
Proof.
  destruct (store_failures_end_in_an_alert Firestore.backend w_down
              (JSError "unavailable")) as (_ & Hcreate & _).
  apply Hcreate.
  - vm_compute. discriminate.
  - reflexivity.
Defined.

(** C5 on the input " milk ": the trimmed text is written. *)
Lemma createTodo_forwards_witness :
  trim (lit " milk ") = lit "milk"
  /\ written_docs
       (effects_since w_fresh (createTodo Firestore.backend (lit " milk ") w_fresh).2)
     = [(todosCollection, new_todo_data (trim (lit " milk ")) sample_time)].
Proof.
  split; [vm_compute; reflexivity|].
  destruct (createTodo_forwards_nonblank_text Firestore.backend (lit " milk ")
              w_fresh) as (Hforward & _).
  apply Hforward. vm_compute. discriminate.
Defined.

(** C6 on one life of the screen: mount, type, add, receive the snapshot,
    unmount. *)
Lemma one_subscription_witness :
  List.filter is_subscribe
    (log (run_events Firestore.backend
            (EvMount
               :: [EvChangeText (lit " milk "); EvPressAdd;
                   EvSnapshot 0 sample_snapshot] ++ [EvUnmount])
            (initial_world Firestore.empty sample_time)))
    = [CallOnSnapshot todos_query 0]
  /\ listeners
       (run_events Firestore.backend
          (EvMount
             :: [EvChangeText (lit " milk "); EvPressAdd;
                 EvSnapshot 0 sample_snapshot] ++ [EvUnmount])
          (initial_world Firestore.empty sample_time))
     = ∅.
Proof.
  destruct (one_subscription_per_mount Firestore.backend Firestore.empty
              sample_time
              [EvChangeText (lit " milk "); EvPressAdd; EvSnapshot 0 sample_snapshot])
    as (_ & _ & _ & Hlife).
  destruct Hlife as (Hopen & _ & _ & Hnone);
    [|split; [exact Hopen | exact Hnone]].
  repeat (apply List.Forall_cons; [split; discriminate|]). apply List.Forall_nil.
Defined.

(** C7 on the store that rejects every call: the failed toggle is one call,
    one console line, one alert. *)
Lemma mutations_witness :
  effects_since w_down
    (toggleTodo Firestore.backend (Some (VStr (lit "a"))) (Some (VBool false))
       w_down).2
    = [CallUpdateDoc (doc todosCollection (lit "a")) (toggle_fields false);
       ConsoleError "Error updating todo:" (JSError "unavailable");
       AlertShown "Error" "Failed to update todo" []]
  /\ ui (toggleTodo Firestore.backend (Some (VStr (lit "a")))
           (Some (VBool false)) w_down).2
     = ui w_down.
Proof.
  destruct (mutations_are_fire_and_forget Firestore.backend w_down)
    as (_ & _ & _ & _ & _ & Htoggle & _).
  apply (Htoggle (Some (VStr (lit "a"))) (Some (VBool false))
           (doc todosCollection (lit "a")) (JSError "unavailable")
           Firestore.unavailable).
  - vm_compute. reflexivity.
  - reflexivity.
Defined.

(** C8 on the dialog that [deleteTodo "a"] put on screen: Cancel dismisses
    it, Delete deletes the document. *)
Lemma confirmation_witness :
  dispatch Firestore.backend (deleteTodo (Some (VStr (lit "a"))) w_fresh).2
    (EvPressAlertButton 0 0)
    = dismiss 0 (deleteTodo (Some (VStr (lit "a"))) w_fresh).2
  /\ backend_calls
       (effects_since (deleteTodo (Some (VStr (lit "a"))) w_fresh).2
          (dispatch Firestore.backend
             (deleteTodo (Some (VStr (lit "a"))) w_fresh).2
             (EvPressAlertButton 0 1)))
     = [CallDeleteDoc (doc todosCollection (lit "a"))].
Proof.
  destruct (delete_and_logout_wait_for_confirmation Firestore.backend
              (deleteTodo (Some (VStr (lit "a"))) w_fresh).2)
    as (_ & _ & Hdelete & Haccepted & _).
  split.
  - apply (Hdelete 0%nat (Some (VStr (lit "a")))). reflexivity.
  - apply (Haccepted 0%nat (lit "a")); [reflexivity | vm_compute; reflexivity].
Defined.

(** C9 on the input " milk " and a store that accepts it: the insert, then
    the clearing of the input. *)
Lemma createTodo_clears_witness :
  effects_since w_fresh (createTodo Firestore.backend (lit " milk ") w_fresh).2
    = [CallAddDoc todosCollection (new_todo_data (trim (lit " milk ")) sample_time);
       SetInputText []]
  /\ inputText (ui (createTodo Firestore.backend (lit " milk ") w_fresh).2) = [].
Proof.
  destruct (createTodo_clears_input_after_success Firestore.backend (lit " milk ")
              w_fresh) as (Hsuccess & _).
  eapply Hsuccess.
  - vm_compute. discriminate.
  - reflexivity.
Defined.

(** C10 on a snapshot of two todos, the newer first: the rows on screen are
    in that order. *)
Lemma displayed_in_query_order_witness :
  ordered_by newest_first k_createdAt (map doc_data sample_snapshot)
  /\ ordered_by newest_first k_createdAt
       (displayed (ui (snapshot_next sample_snapshot w_fresh).2))
  /\ map todo_createdAt (displayed (ui (snapshot_next sample_snapshot w_fresh).2))
     = [Some (VDate 2000); Some (VDate 1000)].
Proof.
  assert (ordered_by newest_first k_createdAt (map doc_data sample_snapshot))
    as Hsnapshot.
  { apply SSorted_cons;
      [apply SSorted_cons; [apply SSorted_nil | apply List.Forall_nil]|].
    apply List.Forall_cons; [|apply List.Forall_nil].
    vm_compute. discriminate. }
  split; [exact Hsnapshot|].
  destruct (displayed_in_query_order Firestore.backend newest_first
              sample_snapshot w_fresh Hsnapshot) as (_ & Htimes & Hrows & _).
  split; [exact Hrows|]. rewrite Htimes. vm_compute. reflexivity.
Defined.

(** * Further properties of the screen *)

(** ** The text of a new todo *)

Lemma trimStart_prefix (s : jsstring) :
  exists pre, s = pre ++ trimStart s /\ all_whitespace pre.
Proof.
  induction s as [|a s (pre & IH & Hpre)]; simpl.
  - exists []. split; [reflexivity | constructor].
  - destruct (is_js_whitespace a) eqn:Ha.
    + exists (a :: pre). split; [simpl; by rewrite <- IH|].
      constructor; [exact Ha | exact Hpre].
    + exists []. split; [reflexivity | constructor].
Qed.

(** [trim] removes a run of white space at each end and nothing else. *)
Lemma trim_segment (s : jsstring) :
  exists pre post,
    s = pre ++ trim s ++ post /\ all_whitespace pre /\ all_whitespace post.
Proof.
  destruct (trimStart_prefix s) as (pre & Hs & Hpre).
  destruct (trimStart_prefix (rev (trimStart s))) as (q & Hq & Hws).
  exists pre, (rev q). split; [|split; [exact Hpre|]].
  - rewrite Hs at 1. f_equal. unfold trim, trimEnd.
    rewrite <- rev_app_distr, <- Hq. by rewrite rev_involutive.
  - unfold all_whitespace. by apply List.Forall_rev.
Qed.

Lemma trimStart_all_whitespace (s : jsstring) :
  all_whitespace s -> trimStart s = [].
Proof.
  induction 1 as [|c s Hc _ IH]; simpl; [reflexivity|]. by rewrite Hc.
Qed.

Lemma trim_nil_iff (s : jsstring) : trim s = [] <-> all_whitespace s.
Proof.
  split.
  - intros Hnil. destruct (trim_segment s) as (pre & post & Hs & Hpre & Hpost).
    rewrite Hs, Hnil. simpl. unfold all_whitespace. by apply Forall_app.
  - intros Hall. unfold trim. by rewrite (trimStart_all_whitespace s Hall).
Qed.

(** X1. The create operation turns an input away exactly when the input is
    empty or white space only: then, and only then, the run is the alert
    "Please enter a todo item" alone and the store is not called. *)
Theorem createTodo_rejects_exactly_whitespace {S : Type} (B : Backend S)
    (input : jsstring) (w : @world S) :
  (all_whitespace input <->
     effects_since w (createTodo B input w).2
       = [AlertShown "Error" "Please enter a todo item" []])
  /\ (all_whitespace input <->
        backend_calls (effects_since w (createTodo B input w).2) = []).
Proof.
  rewrite <- trim_nil_iff.
  destruct (createTodo_cases B input w)
    as [[Hb ->]|[(Hne & r & s' & _ & ->)|(Hne & e & s' & _ & ->)]];
    simpl; rewrite effects_since_after; simpl.
  - split; split; auto.
  - split; split; intros H; try contradiction; discriminate.
  - split; split; intros H; try contradiction; discriminate.
Qed.

(** X2. The text of a document the create operation writes is a segment of
    the input: the input is that text between two runs of white space, so
    white space inside the text is kept as typed. *)
Theorem createTodo_writes_input_segment {S : Type} (B : Backend S)
    (input : jsstring) (w : @world S) :
  Forall
    (fun cd =>
       exists pre text post,
         cd.2 !! k_text = Some (VStr text)
         /\ input = pre ++ text ++ post
         /\ all_whitespace pre /\ all_whitespace post)
    (written_docs (effects_since w (createTodo B input w).2)).
Proof.
  destruct (trim_segment input) as (pre & post & Hs & Hpre & Hpost).
  destruct (createTodo_cases B input w)
    as [[Hb ->]|[(Hne & r & s' & _ & ->)|(Hne & e & s' & _ & ->)]];
    simpl; rewrite effects_since_after; simpl; repeat constructor.
  all: exists pre, (trim input), post; simpl.
  all: rewrite new_todo_data_lookup; auto.
Qed.

(** ** Gestures *)

Section Gestures.
Context {S : Type} (B : Backend S).
Implicit Types (w : @world S) (e : jserror) (id s : jsstring).

Lemma dispatch_normal (ev : ui_event) w w' :
  step B ev w = (Normal tt, w') -> dispatch B w ev = w'.
Proof. intros Hstep. unfold dispatch. by rewrite Hstep. Qed.

Lemma run_events_two (ev1 ev2 : ui_event) w :
  run_events B [ev1; ev2] w = dispatch B (dispatch B w ev1) ev2.
Proof. reflexivity. Qed.

Lemma press_add_step w :
  mounted w = true -> step B EvPressAdd w = createTodo B (inputText (ui w)) w.
Proof. intros Hm. unfold step. unfold mbind, M_bind, get. by rewrite Hm. Qed.

Lemma pressed_row_lookup (u : screen_state) (i : nat) (t : obj) :
  displayed u !! i = Some t ->
  pressed_row u i = Some (todo_id t, todo_completed t).
Proof. intros Hrow. unfold pressed_row. by rewrite Hrow. Qed.

Lemma press_todo_step w (i : nat) (t : obj) :
  mounted w = true -> displayed (ui w) !! i = Some t ->
  step B (EvPressTodo i) w = toggleTodo B (todo_id t) (todo_completed t) w.
Proof.
  intros Hm Hrow. unfold step. unfold mbind, M_bind, get.
  by rewrite Hm, (pressed_row_lookup _ _ _ Hrow).
Qed.

Lemma press_delete_step w (i : nat) (t : obj) :
  mounted w = true -> displayed (ui w) !! i = Some t ->
  step B (EvPressDelete i) w = deleteTodo (todo_id t) w.
Proof.
  intros Hm Hrow. unfold step. unfold mbind, M_bind, get.
  by rewrite Hm, (pressed_row_lookup _ _ _ Hrow).
Qed.

Lemma change_text_run w s :
  mounted w = true ->
  dispatch B w (EvChangeText s) =
    after w (ScreenState (todos (ui w)) s (loading (ui w))) [] (store w)
      [SetInputText s].
Proof.
  intros Hm. apply dispatch_normal. unfold step. run_monad. rewrite Hm.
  same_world.
Qed.

Lemma clock_run w (t : Z) : dispatch B w (EvClock t) = set_clock t w.
Proof. reflexivity. Qed.

Lemma snapshot_run w (h : nat) (q : query) (docs : list snapshot_doc) :
  listeners w !! h = Some q ->
  dispatch B w (EvSnapshot h docs) =
    after w (ScreenState (map toTodo docs) (inputText (ui w)) false) []
      (store w) [SetTodos (map toTodo docs); SetLoading false].
Proof.
  intros Hlive. apply dispatch_normal. unfold step, mbind, M_bind, get.
  rewrite Hlive. apply snapshot_next_run.
Qed.

(** The row the screen shows for a document that stores no [id] passes the
    document's id and the [completed] the document stores. *)
Lemma row_args_toTodo (d : snapshot_doc) :
  doc_data d !! k_id = None ->
  row_args (toTodo d) = (Some (VStr (doc_id d)), doc_data d !! k_completed).
Proof.
  intros Hid. unfold row_args, todo_id, todo_completed.
  rewrite toTodo_lookup, Hid, decide_True by reflexivity.
  by rewrite toTodo_other_field by discriminate.
Qed.

End Gestures.

(** X3. Typing a text and pressing Add writes one document: the trimmed
    text as typed last, not completed, dated by the device clock at the
    press. *)
Theorem typed_text_is_added {S : Type} (B : Backend S) (w : @world S)
    (s : jsstring) (t : Z) :
  mounted w = true ->
  trim s <> [] ->
  written_docs
    (effects_since w (run_events B [EvChangeText s; EvClock t; EvPressAdd] w))
    = [(todosCollection, new_todo_data (trim s) t)].
Proof.
  intros Hm Hne. unfold run_events. simpl.
  rewrite (change_text_run B w s Hm), clock_run.
  set (w1 := set_clock t _).
  assert (dispatch B w1 EvPressAdd = (createTodo B s w1).2) as ->.
  { unfold dispatch. rewrite (press_add_step B w1 Hm).
    change (inputText (ui w1)) with s.
    destruct (createTodo_cases B s w1)
      as [[Hb ->]|[(_ & r & s' & _ & ->)|(_ & e & s' & _ & ->)]]; reflexivity. }
  destruct (createTodo_cases B s w1)
    as [[Hb _]|[(_ & r & s' & _ & ->)|(_ & e & s' & _ & ->)]];
    [contradiction| |].
  - subst w1. effects_now. reflexivity.
  - subst w1. effects_now. reflexivity.
Qed.

(** X4. Pressing Add again once an add has succeeded, with nothing typed in
    between, adds nothing: the input was cleared, so the second press only
    shows "Please enter a todo item". *)
Theorem add_twice_writes_once {S : Type} (B : Backend S) (w : @world S)
    (r : docref) (s' : S) :
  mounted w = true ->
  trim (inputText (ui w)) <> [] ->
  be_addDoc B todosCollection
    (new_todo_data (trim (inputText (ui w))) (clock w)) (store w)
    = (Resolved r, s') ->
  effects_since w (run_events B [EvPressAdd; EvPressAdd] w)
    = [CallAddDoc todosCollection
         (new_todo_data (trim (inputText (ui w))) (clock w));
       SetInputText [];
       AlertShown "Error" "Please enter a todo item" []].
Proof.
  intros Hm Hne Hcall. unfold run_events. simpl.
  rewrite (dispatch_normal B EvPressAdd w _
             (eq_trans (press_add_step B w Hm)
                (createTodo_resolved B _ w r s' Hne Hcall))).
  set (w1 := after w _ _ _ _).
  rewrite (dispatch_normal B EvPressAdd w1 _
             (eq_trans (press_add_step B w1 Hm)
                (createTodo_blank B [] w1 eq_refl))).
  subst w1. effects_now. reflexivity.
Qed.

(** X5. A press on a row updates the document the row came from: after a
    snapshot, for a document with a document id that stores no [id] field
    and a boolean [completed], pressing its row sends one [updateDoc] to
    the document of that id with [completed] negated. *)
Theorem row_press_updates_its_document {S : Type} (B : Backend S)
    (w : @world S) (h : nat) (q : query) (docs : list snapshot_doc)
    (i : nat) (d : snapshot_doc) (completed : bool) :
  mounted w = true ->
  listeners w !! h = Some q ->
  docs !! i = Some d ->
  is_document_id (doc_id d) = true ->
  doc_data d !! k_id = None ->
  doc_data d !! k_completed = Some (VBool completed) ->
  backend_calls
    (effects_since w (run_events B [EvSnapshot h docs; EvPressTodo i] w))
    = [CallUpdateDoc (doc todosCollection (doc_id d)) (toggle_fields completed)].
Proof.
  intros Hm Hlive Hi Hname Hid Hflag. unfold run_events. simpl.
  rewrite (snapshot_run B w h q docs Hlive).
  set (w1 := after w _ _ _ _).
  assert (displayed (ui w1) !! i = Some (toTodo d)) as Hrow.
  { unfold displayed. simpl. change (map toTodo docs) with (toTodo <$> docs).
    by rewrite list_lookup_fmap, Hi. }
  unfold dispatch. rewrite (press_todo_step B w1 i _ Hm Hrow).
  pose proof (row_args_toTodo d Hid) as Hargs. unfold row_args in Hargs.
  injection Hargs as -> ->. rewrite Hflag.
  pose proof (checked_doc_string _ _ (document_id_accepted _ Hname)) as Hdoc.
  destruct (be_updateDoc B (doc todosCollection (doc_id d))
              (toggle_fields (truthy (Some (VBool completed)))) (store w1))
    as [[[]|e] s'] eqn:Hcall.
  - rewrite (toggleTodo_resolved B _ _ w1 _ s' Hdoc Hcall).
    subst w1. effects_now. reflexivity.
  - rewrite (toggleTodo_rejected B _ _ w1 _ e s' Hdoc Hcall).
    subst w1. effects_now. reflexivity.
Qed.

(** X6. The screen does not toggle a row itself: two presses on the same
    row with no snapshot in between do the same thing twice. When the
    client accepts the row's id each sends the same [updateDoc], the
    negation of the flag the row still shows; when it refuses the id,
    neither sends anything. *)
Theorem double_press_repeats_the_update {S : Type} (B : Backend S)
    (w : @world S) (i : nat) (t : obj) :
  mounted w = true ->
  displayed (ui w) !! i = Some t ->
  backend_calls
    (effects_since w (run_events B [EvPressTodo i; EvPressTodo i] w))
    = match checked_doc todosCollection (todo_id t) with
      | Resolved r =>
          [CallUpdateDoc r (toggle_fields (truthy (todo_completed t)));
           CallUpdateDoc r (toggle_fields (truthy (todo_completed t)))]
      | Rejected _ => []
      end.
Proof.
  intros Hm Hrow. rewrite run_events_two.
  assert (forall w', mounted w' = true -> ui w' = ui w ->
            exists d s' l,
              dispatch B w' (EvPressTodo i) = after w' (ui w) d s' l
              /\ backend_calls l
                   = match checked_doc todosCollection (todo_id t) with
                     | Resolved r =>
                         [CallUpdateDoc r
                            (toggle_fields (truthy (todo_completed t)))]
                     | Rejected _ => []
                     end) as Hpress.
  { intros w' Hm' Hui. unfold dispatch.
    rewrite (press_todo_step B w' i t Hm') by (by rewrite Hui).
    destruct (toggleTodo_cases B (todo_id t) (todo_completed t) w')
      as [(e & -> & ->)|[(r & s' & -> & _ & ->)|(r & e & s' & -> & _ & ->)]];
      rewrite Hui; eauto 10. }
  destruct (Hpress w Hm eq_refl) as (d1 & s1 & l1 & -> & Hl1).
  destruct (Hpress (after w (ui w) d1 s1 l1) Hm eq_refl)
    as (d2 & s2 & l2 & -> & Hl2).
  effects_now. unfold backend_calls in *. rewrite List.filter_app, Hl1, Hl2.
  by destruct (checked_doc todosCollection (todo_id t)).
Qed.

(** The dialog an operation has just put on screen is the last one. *)
Lemma new_dialog_lookup {S : Type} (w : @world S) (u : screen_state)
    (bs : list alert_button) (s : S) (l : list event) :
  dialogs (after w u [bs] s l) !! length (dialogs w) = Some bs.
Proof. unfold after. simpl. by apply list_lookup_middle. Qed.

Lemma dismiss_new_dialog {S : Type} (w : @world S) (u : screen_state)
    (bs : list alert_button) (s : S) (l : list event) :
  dialogs (dismiss (length (dialogs w)) (after w u [bs] s l)) = dialogs w.
Proof.
  unfold dismiss, after. simpl.
  rewrite take_app_length, drop_ge, app_nil_r; [reflexivity|].
  rewrite length_app. simpl. lia.
Qed.

(** X7. Deleting from a row, whatever the row holds: the press on the
    row's Delete shows the dialog and calls nothing; its Delete button then
    sends one [deleteDoc] for the document whose id the row holds, or
    nothing when the client refuses that id, and the row stays in the todos
    (only a later snapshot removes it); its Cancel button sends nothing and
    leaves the alerts on screen as they were before the press. *)
Theorem row_delete_needs_the_dialog {S : Type} (B : Backend S)
    (w : @world S) (i : nat) (t : obj) :
  mounted w = true ->
  displayed (ui w) !! i = Some t ->
  backend_calls (effects_since w (dispatch B w (EvPressDelete i))) = []
  /\ backend_calls
       (effects_since w
          (run_events B
             [EvPressDelete i; EvPressAlertButton (length (dialogs w)) 1] w))
     = match checked_doc todosCollection (todo_id t) with
       | Resolved r => [CallDeleteDoc r]
       | Rejected _ => []
       end
  /\ todos (ui (run_events B
                  [EvPressDelete i; EvPressAlertButton (length (dialogs w)) 1] w))
     = todos (ui w)
  /\ backend_calls
       (effects_since w
          (run_events B
             [EvPressDelete i; EvPressAlertButton (length (dialogs w)) 0] w))
     = []
  /\ dialogs (run_events B
                [EvPressDelete i; EvPressAlertButton (length (dialogs w)) 0] w)
     = dialogs w.
Proof.
  intros Hm Hrow. rewrite !run_events_two.
  rewrite (dispatch_normal B (EvPressDelete i) w _
             (eq_trans (press_delete_step B w i t Hm Hrow)
                (deleteTodo_run (todo_id t) w))).
  fold (delete_buttons (todo_id t)). set (alert := AlertShown _ _ _).
  pose proof (new_dialog_lookup w (ui w) (delete_buttons (todo_id t)) (store w)
                [alert]) as Hd.
  split; [by rewrite effects_since_after|].
  rewrite (press_plain_button B _ _ 0 (delete_buttons (todo_id t)) "Cancel"
             StyleCancel Hd eq_refl).
  rewrite (dispatch_confirm B _ _ (delete_buttons (todo_id t)) "Delete"
             StyleDestructive (OnConfirmDelete (todo_id t)) Hd eq_refl).
  set (w1 := dismiss _ _).
  split; [|split; [|split]].
  - destruct (confirm_delete_cases B (todo_id t) w1)
      as [(e & -> & ->)|[(r & s' & -> & _ & ->)|(r & e & s' & -> & _ & ->)]];
      subst w1; effects_now; reflexivity.
  - destruct (confirm_delete_cases B (todo_id t) w1)
      as [(e & _ & ->)|[(r & s' & _ & _ & ->)|(r & e & s' & _ & _ & ->)]];
      reflexivity.
  - subst w1. effects_now. reflexivity.
  - apply dismiss_new_dialog.
Qed.

(** ** What is on screen *)

Lemma step_keeps_loading {S : Type} (B : Backend S) (ev : ui_event)
    (w : @world S) :
  is_delivery ev = false ->
  loading (ui w) = true ->
  loading (ui (dispatch B w ev)) = true.
Proof.
  intros Hev Hl. unfold dispatch.
  step_cases ev; try discriminate; try reflexivity; exact Hl.
Qed.

(** X8. From the first display the spinner stays until the live query
    answers: whatever the user does, and however often the screen is
    rendered or shown again, as long as no snapshot and no listener error
    arrives the loading flag is set, the body is the spinner and no row is
    on screen. *)
Theorem spinner_until_first_answer {S : Type} (B : Backend S)
    (s : S) (t : Z) (evs : list ui_event) :
  Forall (fun ev => is_delivery ev = false) evs ->
  loading (ui (run_events B (EvMount :: evs) (initial_world s t))) = true
  /\ render_body (ui (run_events B (EvMount :: evs) (initial_world s t)))
     = ViewLoading
  /\ displayed (ui (run_events B (EvMount :: evs) (initial_world s t))) = [].
Proof.
  intros Hevs.
  assert (loading (ui (run_events B (EvMount :: evs) (initial_world s t))) = true)
    as Hl.
  { rewrite run_events_cons, mount_initial.
    set (w1 := World _ _ _ _ _ _ _ _ _ _).
    assert (loading (ui w1) = true) as H1 by reflexivity.
    clearbody w1. revert w1 H1.
    induction Hevs as [|ev evs Hev _ IH]; intros w1 H1; [exact H1|].
    rewrite run_events_cons. apply IH. by apply step_keeps_loading. }
  unfold render_body, displayed. by rewrite Hl.
Qed.

(** X9. What a snapshot puts on screen: the notice for an empty snapshot,
    else one row per document in the snapshot's order. Each row shows the
    document's [text], is checked by the truthiness of its [completed],
    and has the document's id as its key when the document stores no [id]
    field. *)
Theorem snapshot_body {S : Type} (docs : list snapshot_doc) (w : @world S) :
  render_body (ui (snapshot_next docs w).2)
    = match docs with
      | [] => ViewEmpty
      | _ => ViewRows (map (fun d => render_row (toTodo d)) docs)
      end
  /\ Forall
       (fun d =>
          row_text (render_row (toTodo d)) = doc_data d !! k_text
          /\ row_checked (render_row (toTodo d))
             = truthy (doc_data d !! k_completed)
          /\ (doc_data d !! k_id = None ->
              row_key (render_row (toTodo d)) = Some (VStr (doc_id d))))
       docs.
Proof.
  rewrite snapshot_next_run. unfold render_body. simpl. split.
  - destruct docs as [|d docs]; simpl; [reflexivity|]. by rewrite map_map.
  - apply Forall_forall. intros d _. unfold render_row. simpl.
    unfold todo_text, todo_completed, todo_id.
    rewrite !toTodo_other_field by discriminate.
    split; [reflexivity|]. split; [reflexivity|].
    intros Hid. rewrite toTodo_lookup, Hid. by rewrite decide_True.
Qed.

(** X10. A todo comes back as it was written: every document the create
    operation writes, delivered in a snapshot under an id, is shown as an
    unchecked row with that id as key and the trimmed input as text, and
    its row passes that id and [false] to toggle and delete. With the
    fields of a toggle merged into it, the row is checked by the negation
    of the flag passed, with the same key and text. *)
Theorem created_todo_is_displayed {S : Type} (B : Backend S)
    (input : jsstring) (w : @world S) :
  Forall
    (fun cd =>
       forall i : jsstring,
         render_row (toTodo (SnapshotDoc i cd.2))
           = RowView (Some (VStr i)) false (Some (VStr (trim input)))
         /\ row_args (toTodo (SnapshotDoc i cd.2))
            = (Some (VStr i), Some (VBool false))
         /\ forall c : bool,
              render_row (toTodo (SnapshotDoc i (toggle_fields c ∪ cd.2)))
                = RowView (Some (VStr i)) (negb c) (Some (VStr (trim input))))
    (written_docs (effects_since w (createTodo B input w).2)).
Proof.
  assert (forall (i : jsstring) (fields : obj) (k : jsstring),
            toTodo (SnapshotDoc i fields) !! k
            = match fields !! k with
              | Some v => Some v
              | None => if decide (k = k_id) then Some (VStr i) else None
              end) as Hlook by (intros; apply toTodo_lookup).
  assert (forall i,
            render_row (toTodo (SnapshotDoc i
                                  (new_todo_data (trim input) (clock w))))
              = RowView (Some (VStr i)) false (Some (VStr (trim input)))
            /\ row_args (toTodo (SnapshotDoc i
                                   (new_todo_data (trim input) (clock w))))
               = (Some (VStr i), Some (VBool false))
            /\ forall c : bool,
                 render_row
                   (toTodo (SnapshotDoc i
                              (toggle_fields c
                                 ∪ new_todo_data (trim input) (clock w))))
                   = RowView (Some (VStr i)) (negb c) (Some (VStr (trim input))))
    as Hrow.
  { intros i. split; [|split].
    - unfold render_row, todo_id, todo_completed, todo_text.
      rewrite !Hlook, !new_todo_data_lookup. reflexivity.
    - unfold row_args, todo_id, todo_completed.
      rewrite !Hlook, !new_todo_data_lookup. reflexivity.
    - intros c. unfold render_row, todo_id, todo_completed, todo_text.
      rewrite !Hlook, !lookup_union, !toggle_fields_lookup,
        !new_todo_data_lookup.
      by destruct c. }
  destruct (createTodo_cases B input w)
    as [[Hb ->]|[(Hne & r & s' & _ & ->)|(Hne & e & s' & _ & ->)]];
    simpl; rewrite effects_since_after; simpl; repeat constructor;
    apply Hrow.
Qed.

(** X11. A listener error ends the loading state without touching the
    todos or the input: the body then shows what the screen already had,
    the rows of the last snapshot or, with none, the empty notice. On a
    first display whose live query fails at once, the user gets the alert
    "Failed to load todos" and the notice "No todos yet". *)
Theorem listener_error_ends_loading {S : Type} (B : Backend S)
    (e : jserror) (w : @world S) (s : S) (t : Z) :
  todos (ui (snapshot_error e w).2) = todos (ui w)
  /\ inputText (ui (snapshot_error e w).2) = inputText (ui w)
  /\ render_body (ui (snapshot_error e w).2)
     = match todos (ui w) with
       | [] => ViewEmpty
       | _ => ViewRows (map render_row (todos (ui w)))
       end
  /\ render_body
       (ui (run_events B [EvMount; EvSnapshotError 0 e] (initial_world s t)))
     = ViewEmpty
  /\ alerts
       (log (run_events B [EvMount; EvSnapshotError 0 e] (initial_world s t)))
     = [AlertShown "Error" "Failed to load todos" []].
Proof.
  rewrite snapshot_error_run. split; [reflexivity|]. split; [reflexivity|].
  split; [|split].
  - unfold render_body. simpl. by destruct (todos (ui w)).
  - by rewrite run_events_two, mount_initial.
  - by rewrite run_events_two, mount_initial.
Qed.

(** X12. The React keys of the rows are pairwise distinct whenever the
    snapshot's documents have pairwise distinct ids and none stores an
    [id] field. *)
Theorem row_keys_distinct {S : Type} (docs : list snapshot_doc) (w : @world S) :
  NoDup (map doc_id docs) ->
  Forall (fun d => doc_data d !! k_id = None) docs ->
  NoDup (map (fun todo => row_key (render_row todo))
           (displayed (ui (snapshot_next docs w).2))).
Proof.
  intros Hids Hplain. rewrite snapshot_next_run. unfold displayed. simpl.
  rewrite map_map.
  rewrite (List.map_ext_Forall _ (fun d => Some (VStr (doc_id d)))).
  - rewrite <- (map_map doc_id (fun i => Some (VStr i))).
    change (map (fun i => Some (VStr i)) (map doc_id docs))
      with ((fun i => Some (VStr i)) <$> map doc_id docs).
    apply NoDup_fmap_2; [|exact Hids]. by intros i j [= ->].
  - revert Hplain. apply List.Forall_impl. intros d Hid. simpl.
    unfold todo_id. rewrite toTodo_lookup, Hid. by rewrite decide_True.
Qed.

Section Frames.
Context {S : Type} (B : Backend S).
Implicit Types (w : @world S) (ev : ui_event).

Lemma step_keeps_input ev w :
  (forall s, ev <> EvChangeText s) -> ev <> EvPressAdd -> ev <> EvMount ->
  inputText (ui (dispatch B w ev)) = inputText (ui w).
Proof.
  intros Htype Hadd Hmount. unfold dispatch.
  step_cases ev; try reflexivity; try congruence.
  all: exfalso; exact (Htype _ eq_refl).
Qed.

Lemma unmount_keeps_next_listener w :
  next_listener (dispatch B w EvUnmount) = next_listener w.
Proof. unfold dispatch. step_cases EvUnmount; reflexivity. Qed.

Lemma snapshot_without_listener w (h : nat) (docs : list snapshot_doc) :
  listeners w !! h = None -> dispatch B w (EvSnapshot h docs) = w.
Proof.
  intros Hnone. unfold dispatch, step, mbind, M_bind, get. by rewrite Hnone.
Qed.

Lemma error_without_listener w (h : nat) (e : jserror) :
  listeners w !! h = None -> dispatch B w (EvSnapshotError h e) = w.
Proof.
  intros Hnone. unfold dispatch, step, mbind, M_bind, get. by rewrite Hnone.
Qed.

End Frames.

(** X13. What the user has typed survives everything but typing, Add and a
    new display of the screen: no snapshot, listener error, toggle, delete,
    logout, alert button, render or unmount changes the input text. *)
Theorem typed_text_survives {S : Type} (B : Backend S)
    (evs : list ui_event) (w : @world S) :
  Forall
    (fun ev => (forall s, ev <> EvChangeText s) /\ ev <> EvPressAdd /\ ev <> EvMount)
    evs ->
  inputText (ui (run_events B evs w)) = inputText (ui w).
Proof.
  intros Hevs. revert w.
  induction Hevs as [|ev evs (Htype & Hadd & Hmount) _ IH]; intros w;
    [reflexivity|].
  rewrite run_events_cons, IH. by apply step_keeps_input.
Qed.

(** X14. Logging out from the header: the press shows the dialog and calls
    nothing; its Logout button makes the one [logout] call. The screen does
    nothing more: its cells, its subscription and its being mounted are as
    before (the navigation to the login screen is commented out, line
    142). *)
Theorem logout_only_calls_logout {S : Type} (B : Backend S) (w : @world S) :
  mounted w = true ->
  backend_calls (effects_since w (dispatch B w EvPressLogout)) = []
  /\ backend_calls
       (effects_since w
          (run_events B
             [EvPressLogout; EvPressAlertButton (length (dialogs w)) 1] w))
     = [CallLogout]
  /\ ui (run_events B
           [EvPressLogout; EvPressAlertButton (length (dialogs w)) 1] w)
     = ui w
  /\ listeners (run_events B
                  [EvPressLogout; EvPressAlertButton (length (dialogs w)) 1] w)
     = listeners w
  /\ mounted (run_events B
                [EvPressLogout; EvPressAlertButton (length (dialogs w)) 1] w)
     = true.
Proof.
  intros Hm. rewrite !run_events_two.
  assert (step B EvPressLogout w = handleLogout w) as Hstep
    by (unfold step, mbind, M_bind, get; by rewrite Hm).
  rewrite (dispatch_normal B EvPressLogout w _
             (eq_trans Hstep (handleLogout_run w))).
  fold logout_buttons. set (alert := AlertShown _ _ _).
  pose proof (new_dialog_lookup w (ui w) logout_buttons (store w) [alert]) as Hd.
  split; [by rewrite effects_since_after|].
  assert (dispatch B (after w (ui w) [logout_buttons] (store w) [alert])
            (EvPressAlertButton (length (dialogs w)) 1)
          = (run_handler B OnConfirmLogout
               (dismiss (length (dialogs w))
                  (after w (ui w) [logout_buttons] (store w) [alert]))).2)
    as ->.
  { unfold dispatch.
    rewrite (press_handler_button B _ _ 1 logout_buttons "Logout"
               StyleDestructive OnConfirmLogout Hd eq_refl).
    destruct (confirm_logout_cases B
                (dismiss (length (dialogs w))
                   (after w (ui w) [logout_buttons] (store w) [alert])))
      as [(s' & _ & ->)|(e & s' & _ & ->)]; reflexivity. }
  destruct (confirm_logout_cases B
              (dismiss (length (dialogs w))
                 (after w (ui w) [logout_buttons] (store w) [alert])))
    as [(s' & _ & ->)|(e & s' & _ & ->)].
  - split; [effects_now; reflexivity|]. simpl. auto.
  - split; [effects_now; reflexivity|]. simpl. auto.
Qed.

(** X15. Once the screen is unmounted nothing the live query sends reaches
    it: after an unmount, at any point of any run from the first display, a
    snapshot or a listener error under any handle changes nothing - no
    cell is written, no alert is shown. *)
Theorem nothing_arrives_after_unmount {S : Type} (B : Backend S)
    (s : S) (t : Z) (evs : list ui_event)
    (h : nat) (docs : list snapshot_doc) (e : jserror) :
  dispatch B (run_events B (evs ++ [EvUnmount]) (initial_world s t))
    (EvSnapshot h docs)
    = run_events B (evs ++ [EvUnmount]) (initial_world s t)
  /\ dispatch B (run_events B (evs ++ [EvUnmount]) (initial_world s t))
       (EvSnapshotError h e)
     = run_events B (evs ++ [EvUnmount]) (initial_world s t).
Proof.
  assert (listeners (run_events B (evs ++ [EvUnmount]) (initial_world s t)) = ∅)
    as Hnone.
  { apply one_subscription_unmounted.
    - apply one_subscription_run, one_subscription_initial.
    - rewrite run_events_snoc. by apply unmount_mounted. }
  split.
  - apply snapshot_without_listener. by rewrite Hnone.
  - apply error_without_listener. by rewrite Hnone.
Qed.

(** X16. Showing the screen again starts it afresh: after an unmount and a
    mount, at any point of any run from the first display, the todos and
    the input are empty, the body is the spinner, and the one live query is
    a new subscription on the query of the todos. *)
Theorem remount_starts_afresh {S : Type} (B : Backend S)
    (s : S) (t : Z) (evs : list ui_event) :
  ui (run_events B (evs ++ [EvUnmount; EvMount]) (initial_world s t))
    = initial_state
  /\ render_body
       (ui (run_events B (evs ++ [EvUnmount; EvMount]) (initial_world s t)))
     = ViewLoading
  /\ listeners (run_events B (evs ++ [EvUnmount; EvMount]) (initial_world s t))
     = {[ next_listener (run_events B evs (initial_world s t)) := todos_query ]}.
Proof.
  change [EvUnmount; EvMount] with ([EvUnmount] ++ [EvMount]).
  rewrite app_assoc, run_events_snoc.
  assert (listeners (run_events B (evs ++ [EvUnmount]) (initial_world s t)) = ∅)
    as Hnone.
  { apply one_subscription_unmounted.
    - apply one_subscription_run, one_subscription_initial.
    - rewrite run_events_snoc. by apply unmount_mounted. }
  rewrite mount_run by (rewrite run_events_snoc; by apply unmount_mounted).
  simpl. split; [reflexivity|]. split; [reflexivity|].
  rewrite Hnone, insert_empty, run_events_snoc.
  by rewrite unmount_keeps_next_listener.
Qed.

(** X17. No event makes the screen show more than one alert or call the
    store or the auth provider more than once. *)
Theorem one_alert_one_call_per_event {S : Type} (B : Backend S)
    (ev : ui_event) (w : @world S) :
  (length (alerts (effects_since w (dispatch B w ev))) <= 1)%nat
  /\ (length (backend_calls (effects_since w (dispatch B w ev))) <= 1)%nat.
Proof.
  unfold dispatch, effects_since.
  step_cases ev.
  all: simpl; rewrite <- ?app_assoc, ?drop_app_length, ?drop_all; simpl; lia.
Qed.

(** X18. Once the live query has answered, the spinner does not come back
    while the screen stays up: adding, toggling, deleting, logging out,
    typing and further snapshots or errors all leave the loading flag
    cleared; only a new display of the screen sets it again. *)
Theorem no_spinner_after_first_answer {S : Type} (B : Backend S)
    (evs : list ui_event) (w : @world S) :
  Forall (fun ev => ev <> EvMount) evs ->
  loading (ui w) = false ->
  loading (ui (run_events B evs w)) = false
  /\ render_body (ui (run_events B evs w)) <> ViewLoading.
Proof.
  intros Hevs Hl.
  assert (loading (ui (run_events B evs w)) = false) as Hdone.
  { revert w Hl. induction Hevs as [|ev evs Hev _ IH]; intros w Hl; [exact Hl|].
    rewrite run_events_cons. apply IH. unfold dispatch.
    step_cases ev; try congruence; try reflexivity. }
  split; [exact Hdone|]. unfold render_body. rewrite Hdone.
  by destruct (length (todos (ui (run_events B evs w))) =? 0)%nat.
Qed.

(** * Further runs on the reference store *)

(** X3 on the screen on display: " milk " typed, the clock at 5, Add. *)
Lemma typed_text_is_added_witness :
  written_docs
    (effects_since w_mounted
       (run_events Firestore.backend
          [EvChangeText (lit " milk "); EvClock 5; EvPressAdd] w_mounted))
    = [(todosCollection, new_todo_data (trim (lit " milk ")) 5)].
Proof.
  apply typed_text_is_added.
  - vm_compute. reflexivity.
  - vm_compute. discriminate.
Defined.

(** X4 on the screen with "milk" typed and a store that accepts it. *)
Lemma add_twice_witness :
  effects_since (dispatch Firestore.backend w_mounted (EvChangeText (lit "milk")))
    (run_events Firestore.backend [EvPressAdd; EvPressAdd]
       (dispatch Firestore.backend w_mounted (EvChangeText (lit "milk"))))
    = [CallAddDoc todosCollection (new_todo_data (trim (lit "milk")) sample_time);
       SetInputText [];
       AlertShown "Error" "Please enter a todo item" []].
Proof.
  eapply (add_twice_writes_once Firestore.backend
            (dispatch Firestore.backend w_mounted (EvChangeText (lit "milk")))).
  - vm_compute. reflexivity.
  - vm_compute. discriminate.
  - reflexivity.
Defined.

(** X5 on the sample snapshot: the first row is the todo "b". *)
Lemma row_press_witness :
  backend_calls
    (effects_since w_mounted
       (run_events Firestore.backend
          [EvSnapshot 0 sample_snapshot; EvPressTodo 0] w_mounted))
    = [CallUpdateDoc (doc todosCollection (lit "b")) (toggle_fields false)].
Proof.
  apply (row_press_updates_its_document Firestore.backend w_mounted 0
           todos_query sample_snapshot 0
           (SnapshotDoc (lit "b") (new_todo_data (lit "eggs") 2000)) false).
  - vm_compute. reflexivity.
  - vm_compute. reflexivity.
  - reflexivity.
  - vm_compute. reflexivity.
  - vm_compute. reflexivity.
  - vm_compute. reflexivity.
Defined.

(** X6 on the screen showing the sample snapshot: two presses on the first
    row, the todo "b", not completed. *)
Lemma double_press_witness :
  backend_calls
    (effects_since w_rows
       (run_events Firestore.backend [EvPressTodo 0; EvPressTodo 0] w_rows))
    = [CallUpdateDoc (doc todosCollection (lit "b")) (toggle_fields false);
       CallUpdateDoc (doc todosCollection (lit "b")) (toggle_fields false)].
Proof.
  rewrite (double_press_repeats_the_update Firestore.backend w_rows 0
             (toTodo (SnapshotDoc (lit "b") (new_todo_data (lit "eggs") 2000)))).
  - vm_compute. reflexivity.
  - vm_compute. reflexivity.
  - vm_compute. reflexivity.
Defined.

(** X7 on the screen showing the sample snapshot: Delete on the first row,
    then the dialog's Delete. *)
Lemma row_delete_witness :
  backend_calls
    (effects_since w_rows
       (run_events Firestore.backend
          [EvPressDelete 0; EvPressAlertButton (length (dialogs w_rows)) 1]
          w_rows))
    = [CallDeleteDoc (doc todosCollection (lit "b"))].
Proof.
  destruct (row_delete_needs_the_dialog Firestore.backend w_rows 0
              (toTodo (SnapshotDoc (lit "b") (new_todo_data (lit "eggs") 2000))))
    as (_ & Hconfirm & _).
  - vm_compute. reflexivity.
  - vm_compute. reflexivity.
  - rewrite Hconfirm. vm_compute. reflexivity.
Defined.

(** X8 on a first display followed by typing, Add and a render. *)
Lemma spinner_witness :
  render_body
    (ui (run_events Firestore.backend
           (EvMount :: [EvChangeText (lit "milk"); EvPressAdd; EvRender])
           (initial_world Firestore.empty sample_time)))
    = ViewLoading.
Proof.
  destruct (spinner_until_first_answer Firestore.backend Firestore.empty
              sample_time [EvChangeText (lit "milk"); EvPressAdd; EvRender])
    as (_ & Hbody & _).
  - repeat (apply List.Forall_cons; [reflexivity|]). apply List.Forall_nil.
  - exact Hbody.
Defined.

(** X12 on the sample snapshot. *)
Lemma row_keys_witness :
  NoDup (map (fun todo => row_key (render_row todo))
           (displayed (ui (snapshot_next sample_snapshot w_mounted).2))).
Proof.
  apply row_keys_distinct.
  - change (map doc_id sample_snapshot) with [lit "b"; lit "a"].
    apply NoDup_cons_2; [|apply NoDup_singleton].
    intros H. apply list_elem_of_singleton in H. discriminate H.
  - repeat (apply List.Forall_cons; [vm_compute; reflexivity|]).
    apply List.Forall_nil.
Defined.

(** X13 on the screen with " milk " typed: a snapshot, a toggle and a
    render later the text is still there. *)
Lemma typed_text_witness :
  inputText
    (ui (run_events Firestore.backend
           [EvSnapshot 0 sample_snapshot; EvPressTodo 0; EvRender]
           (dispatch Firestore.backend w_mounted (EvChangeText (lit " milk ")))))
    = inputText
        (ui (dispatch Firestore.backend w_mounted (EvChangeText (lit " milk ")))).
Proof.
  apply typed_text_survives.
  repeat (apply List.Forall_cons;
          [split; [intros s; discriminate | split; discriminate]|]).
  apply List.Forall_nil.
Defined.

(** X14 on the screen on display. *)
Lemma logout_witness :
  backend_calls
    (effects_since w_mounted
       (run_events Firestore.backend
          [EvPressLogout; EvPressAlertButton (length (dialogs w_mounted)) 1]
          w_mounted))
    = [CallLogout].
Proof.
  destruct (logout_only_calls_logout Firestore.backend w_mounted)
    as (_ & Hconfirm & _).
  - vm_compute. reflexivity.
  - exact Hconfirm.
Defined.

(** X18 on the screen showing the sample snapshot: a toggle, an add and a
    render later there is still no spinner. *)
Lemma no_spinner_witness :
  loading
    (ui (run_events Firestore.backend
           [EvPressTodo 0; EvChangeText (lit "milk"); EvPressAdd; EvRender]
           w_rows))
    = false.
Proof.
  destruct (no_spinner_after_first_answer Firestore.backend
              [EvPressTodo 0; EvChangeText (lit "milk"); EvPressAdd; EvRender]
              w_rows) as (Hdone & _).
  - repeat (apply List.Forall_cons; [discriminate|]). apply List.Forall_nil.
  - vm_compute. reflexivity.
  - exact Hdone.
Defined.
